(** * Ensemble-EVT: anomaly scoring and threshold decision engine

    A shallow embedding of [src/predict.py]: the fault-tolerant loss
    collector [compute_loss_safe], the grouping loop of [fit_evt_models],
    the robust class-conditional fitter [fit_evt_models_robust], and the
    decision procedure [predict].

    Python floats are IEEE 754 binary64 values; they are modelled by the
    Standard Library's [spec_float] at precision 53 and maximal exponent
    1024, so NaN, the infinities and round-to-nearest arithmetic are the
    ones the interpreter computes with.  The single precision values that
    TensorFlow hands over are taken at their binary64 value.  Dictionaries
    are [gmap]s keyed by the class index; an iteration over a dictionary
    visits each key once, and no property below depends on the order.  The
    collaborators the module only calls (the VAE, the BERT classifier and
    its tokenizer, [tf.nn.softmax], [np.percentile],
    [scipy.stats.genextreme]) are parameters.  Printing is left out. *)

From Stdlib Require Import ZArith List Bool Lia.
From Stdlib Require Import Floats.SpecFloat.
From stdpp Require Import base option list gmap.
Import ListNotations.

Local Open Scope Z_scope.

(** ** Binary64 floating point numbers *)

Module Float64.

Definition float : Type := spec_float.

Definition prec : Z := 53.
Definition emax : Z := 1024.

(** The binary64 value nearest to [m * 2^e], and the one of an integer. *)
Definition of_scaled (m e : Z) : float := binary_normalize prec emax m e false.
Definition of_Z (z : Z) : float := of_scaled z 0.

Definition add (x y : float) : float := SFadd prec emax x y.
Definition sub (x y : float) : float := SFsub prec emax x y.
Definition mul (x y : float) : float := SFmul prec emax x y.
Definition div (x y : float) : float := SFdiv prec emax x y.
Definition neg (x : float) : float := SFopp x.
Definition abs (x : float) : float := SFabs x.

(** Python's [x <= y], [x < y] and [x > y]: all false as soon as one side
    is NaN. *)
Definition leb (x y : float) : bool := SFleb x y.
Definition ltb (x y : float) : bool := SFltb x y.
Definition gtb (x y : float) : bool := SFltb y x.

(** [np.isnan] and [np.isinf] on a scalar. *)
Definition isnan (x : float) : bool :=
  match x with S754_nan => true | _ => false end.
Definition isinf (x : float) : bool :=
  match x with S754_infinity _ => true | _ => false end.
Definition isfinite (x : float) : bool :=
  match x with S754_zero _ | S754_finite _ _ _ => true | _ => false end.

Definition nan : float := S754_nan.
Definition pinf : float := S754_infinity false.
Definition ninf : float := S754_infinity true.

(** The literals of the module. *)
Definition f0 : float := S754_zero false.
Definition f1 : float := of_Z 1.
Definition f2 : float := of_Z 2.
Definition f10 : float := of_Z 10.
Definition f25 : float := of_Z 25.
Definition f75 : float := of_Z 75.
Definition f95 : float := of_Z 95.
Definition f100 : float := of_Z 100.
Definition f0_5 : float := of_scaled 1 (-1).
Definition f1_5 : float := of_scaled 3 (-1).
(** [0.05] is the double nearest to 5/100, which the correctly rounded
    quotient of the two exact integers is. *)
Definition f0_05 : float := div (of_Z 5) f100.

(** [np.min] and [np.max] of a one-dimensional array: a NaN element
    propagates, otherwise the least (greatest) element. *)
Definition min2 (a b : float) : float :=
  if isnan a then a else if isnan b then b else if ltb b a then b else a.
Definition max2 (a b : float) : float :=
  if isnan a then a else if isnan b then b else if ltb a b then b else a.
Definition np_min (xs : list float) : float :=
  match xs with
  | [] => nan
  | x :: xs' => fold_left min2 xs' x
  end.
Definition np_max (xs : list float) : float :=
  match xs with
  | [] => nan
  | x :: xs' => fold_left max2 xs' x
  end.

(** [np.argmax]: the index of the first occurrence of the maximum, a NaN
    counting as the maximum. *)
Fixpoint argmax_from (best : float) (besti i : nat) (xs : list float) : nat :=
  match xs with
  | [] => besti
  | x :: xs' =>
      if isnan best then besti
      else if isnan x || ltb best x then argmax_from x i (S i) xs'
      else argmax_from best besti (S i) xs'
  end.
Definition np_argmax (xs : list float) : nat :=
  match xs with
  | [] => 0%nat
  | x :: xs' => argmax_from x 0%nat 1%nat xs'
  end.

End Float64.

Import Float64.

(** ** Results of calls that may raise *)

Inductive result (A : Type) : Type :=
  | Ok (a : A)
  | Raised.
Arguments Ok {A} a.
Arguments Raised {A}.

(** ** The loss collector, [compute_loss_safe] *)

(** What [model.losses] holds after a forward pass: Keras keeps a list of
    scalar tensors, and the code also accepts a bare tensor. *)
Inductive losses_attr : Type :=
  | LossList (l : list float)
  | LossTensor (v : float).

Section LossCollector.

(** One element of [data]: the three aligned tensors [(x, y, z)]. *)
Variable tensor : Type.
Definition batch : Type := (tensor * tensor * tensor)%type.

(** [model([x, y, z], training=False)] followed by reading
    [model.losses]; [Raised] when the forward pass raises. *)
Variable model : batch -> result losses_attr.

(** The body of the [try]: the value of [loss_numpy] when it is reached.
    Indexing an empty list of losses raises [IndexError]. *)
Definition extract_loss (b : batch) : result float :=
  match model b with
  | Raised => Raised
  | Ok (LossList []) => Raised
  | Ok (LossList (v :: _)) => Ok v
  | Ok (LossTensor v) => Ok v
  end.

(** One iteration of the loop on the state [(losses, skipped_count)]. *)
Definition loss_step (st : list float * nat) (b : batch) : list float * nat :=
  let '(losses, skipped_count) := st in
  match extract_loss b with
  | Ok loss_numpy =>
      if isnan loss_numpy || isinf loss_numpy
      then (losses, S skipped_count)
      else (losses ++ [loss_numpy], skipped_count)
  | Raised => (losses, S skipped_count)
  end.

Definition loss_loop (data : list batch) : list float * nat :=
  fold_left loss_step data ([], 0%nat).

Definition compute_loss_safe (data : list batch) : list float :=
  let '(losses, skipped_count) := loss_loop data in
  if (length losses =? 0)%nat then [f10] else losses.

(** The loss of a valid example: extraction succeeds with a value that is
    neither NaN nor infinite. *)
Definition valid_loss (b : batch) : option float :=
  match extract_loss b with
  | Ok v => if isnan v || isinf v then None else Some v
  | Raised => None
  end.

Definition is_valid (b : batch) : bool :=
  match valid_loss b with Some _ => true | None => false end.

(** An invalid example: its extraction raises, or its loss is NaN or
    infinite. *)
Definition invalid_example (b : batch) : Prop :=
  extract_loss b = Raised
  \/ exists v, extract_loss b = Ok v /\ (isnan v = true \/ isinf v = true).

Definition valid_count (data : list batch) : nat :=
  length (List.filter is_valid data).
Definition invalid_count (data : list batch) : nat :=
  length (List.filter (fun b => negb (is_valid b)) data).

End LossCollector.

Arguments extract_loss {tensor} model b.
Arguments loss_step {tensor} model st b.
Arguments loss_loop {tensor} model data.
Arguments compute_loss_safe {tensor} model data.
Arguments valid_loss {tensor} model b.
Arguments is_valid {tensor} model b.
Arguments invalid_example {tensor} model b.
Arguments valid_count {tensor} model data.
Arguments invalid_count {tensor} model data.

(** ** The class-conditional EVT fitters *)

(** A fitted GEV model, the tuple [(shape, loc, scale)]. *)
Abbreviation gev_model := (float * float * float)%type.

(** What the score-building block of a fitter does with one example: it
    produces a score, which the loop appends to the scores of the class of
    the example; it skips the example with [continue]; or it fails with
    [InvalidScoreError]. *)
Inductive builder_outcome : Type :=
  | Produced (ood_score : float)
  | Ignored
  | InvalidScoreError.

(** [zip] of three lists stops at the shortest one. *)
Fixpoint zip3 {A B C : Type} (xs : list A) (ys : list B) (zs : list C)
  : list (A * B * C) :=
  match xs, ys, zs with
  | x :: xs', y :: ys', z :: zs' => (x, y, z) :: zip3 xs' ys' zs'
  | _, _, _ => []
  end.

(** [if cls not in d: d[cls] = []] followed by [d[cls].append(score)]. *)
Definition append_sample (cls : Z) (ood_score : float)
    (class_to_samples : gmap Z (list float)) : gmap Z (list float) :=
  let d :=
    match class_to_samples !! cls with
    | None => <[cls := []]> class_to_samples
    | Some _ => class_to_samples
    end in
  alter (fun scores => scores ++ [ood_score]) cls d.

(** Every class of a grouping has at least one score, and all its scores
    are finite. *)
Definition finite_samples (class_to_samples : gmap Z (list float)) : Prop :=
  forall cls scores,
    class_to_samples !! cls = Some scores ->
    scores <> [] /\ Forall (fun s => isfinite s = true) scores.

(** The numerical collaborators of the fitters. *)
Class Libraries : Type := {
  (** [tf.nn.softmax(logits, axis=1).numpy()[0]] *)
  softmax : list float -> list float;
  (** [np.percentile(a, q)] *)
  np_percentile : list float -> float -> float;
  (** [stats.genextreme.fit(data)]; it may raise *)
  genextreme_fit : list float -> result gev_model;
  (** [stats.genextreme.ppf(q, c, loc, scale)]; it may raise *)
  genextreme_ppf : float -> float -> float -> float -> result float
}.

Section Fitters.

Context {libs : Libraries}.
Context {sentence model_inputs : Type}.

(** The tokenizer call of [__predict_preprocess__], with its fixed
    keyword arguments, and the row of logits that
    [classifier.predict(...)[0]] holds for the one sentence it is given. *)
Definition tokenizer_t : Type := sentence -> Z -> model_inputs.
Definition classifier_t : Type := model_inputs -> list float.

Definition __predict_preprocess__ (x : sentence) (tokenizer : tokenizer_t)
    (max_length : Z) : model_inputs :=
  tokenizer x max_length.

(** The ensemble score with [alpha = 0.5]. *)
Definition ensemble_score (max_prob loss : float) : float :=
  add (mul f0_5 (sub f1 max_prob)) (mul f0_5 loss).

Definition classifier_max_prob (classifier : classifier_t)
    (tokenizer : tokenizer_t) (max_length : Z) (sen : sentence) : float :=
  let inputs := __predict_preprocess__ sen tokenizer max_length in
  let logits := classifier inputs in
  let probs := softmax logits in
  np_max probs.

(** *** [fit_evt_models]: the grouping loop *)

Definition build_score (classifier : classifier_t) (tokenizer : tokenizer_t)
    (max_length : Z) (loss : float) (sen : sentence) : builder_outcome :=
  let max_prob := classifier_max_prob classifier tokenizer max_length sen in
  let ood_score := ensemble_score max_prob loss in
  Produced ood_score.

Definition group_step (build : float -> sentence -> builder_outcome)
    (class_to_samples : gmap Z (list float)) (item : float * sentence * Z)
  : gmap Z (list float) :=
  let '(loss, sen, cls) := item in
  match build loss sen with
  | Produced ood_score => append_sample cls ood_score class_to_samples
  | _ => class_to_samples (* [continue] *)
  end.

Definition class_to_samples_standard (classifier : classifier_t)
    (tokenizer : tokenizer_t) (losses : list float)
    (sentences : list sentence) (true_classes : list Z) (max_length : Z)
  : gmap Z (list float) :=
  fold_left (group_step (build_score classifier tokenizer max_length))
    (zip3 losses sentences true_classes) ∅.

(** *** [fit_evt_models_robust] *)

Definition build_score_robust (classifier : classifier_t)
    (tokenizer : tokenizer_t) (max_length : Z) (loss : float)
    (sen : sentence) : builder_outcome :=
  if isnan loss || isinf loss then Ignored
  else
    let max_prob := classifier_max_prob classifier tokenizer max_length sen in
    let ood_score := ensemble_score max_prob loss in
    if isnan ood_score || isinf ood_score then Ignored
    else Produced ood_score.

Definition class_to_samples_robust (classifier : classifier_t)
    (tokenizer : tokenizer_t) (losses : list float)
    (sentences : list sentence) (true_classes : list Z) (max_length : Z)
  : gmap Z (list float) :=
  fold_left (group_step (build_score_robust classifier tokenizer max_length))
    (zip3 losses sentences true_classes) ∅.

(** The IQR bounds and the scores kept by the outlier removal. *)
Definition iqr_bounds (scores_array : list float) : float * float :=
  let q1 := np_percentile scores_array f25 in
  let q3 := np_percentile scores_array f75 in
  let iqr := sub q3 q1 in
  let lower_bound := sub q1 (mul f1_5 iqr) in
  let upper_bound := add q3 (mul f1_5 iqr) in
  (lower_bound, upper_bound).

Definition within_bounds (bounds : float * float) (s : float) : bool :=
  leb (fst bounds) s && leb s (snd bounds).

Definition remove_outliers (scores_array : list float) : list float :=
  List.filter (within_bounds (iqr_bounds scores_array)) scores_array.

(** [np.percentile(scores_clean, 100 * (1 - fpr))]. *)
Definition percentile_fallback (scores_clean : list float) (fpr : float)
  : float :=
  np_percentile scores_clean (mul f100 (sub f1 fpr)).

(** The test on the fitted parameters. *)
Definition unreasonable (shape scale : float) : bool :=
  gtb (abs shape) f2 || leb scale f0 || gtb scale f10.

(** The sanity test on the threshold derived from the GEV quantile. *)
Definition out_of_range (threshold : float) (scores_clean scores_array : list float)
  : bool :=
  ltb threshold (np_min scores_clean)
  || gtb threshold (mul (np_max scores_array) f2).

(** One iteration of the loop over [class_to_samples.items()], on the
    state [(thresholds, evt_models)].  The [try] covers the fit, the
    quantile and the range test; its handler stores the percentile and
    keeps whatever [evt_models] holds by then. *)
Definition robust_step (fpr : float)
    (st : gmap Z float * gmap Z gev_model) (item : Z * list float)
  : gmap Z float * gmap Z gev_model :=
  let '(thresholds, evt_models) := st in
  let '(cls, scores) := item in
  if (length scores <? 10)%nat
  then (<[cls := np_percentile scores f95]> thresholds, evt_models)
  else
    let scores_array := scores in
    let scores_clean := remove_outliers scores_array in
    if (length scores_clean <? 5)%nat
    then (<[cls := np_percentile scores_array f95]> thresholds, evt_models)
    else
      match genextreme_fit (map neg scores_clean) with
      | Raised =>
          (<[cls := percentile_fallback scores_clean fpr]> thresholds,
           evt_models)
      | Ok (shape, loc, scale) =>
          if unreasonable shape scale
          then (<[cls := percentile_fallback scores_clean fpr]> thresholds,
                evt_models)
          else
            let evt_models := <[cls := (shape, loc, scale)]> evt_models in
            match genextreme_ppf (sub f1 fpr) shape loc scale with
            | Raised =>
                (<[cls := percentile_fallback scores_clean fpr]> thresholds,
                 evt_models)
            | Ok p =>
                let threshold := neg p in
                let threshold :=
                  if out_of_range threshold scores_clean scores_array
                  then percentile_fallback scores_clean fpr
                  else threshold in
                (<[cls := threshold]> thresholds, evt_models)
            end
      end.

(** The threshold and the model entry that one iteration stores under
    its class, as a function of the scores of that class. *)
Definition class_outcome (fpr : float) (scores : list float)
  : float * option gev_model :=
  if (length scores <? 10)%nat then (np_percentile scores f95, None)
  else
    let scores_clean := remove_outliers scores in
    if (length scores_clean <? 5)%nat then (np_percentile scores f95, None)
    else
      match genextreme_fit (map neg scores_clean) with
      | Raised => (percentile_fallback scores_clean fpr, None)
      | Ok (shape, loc, scale) =>
          if unreasonable shape scale
          then (percentile_fallback scores_clean fpr, None)
          else
            match genextreme_ppf (sub f1 fpr) shape loc scale with
            | Raised =>
                (percentile_fallback scores_clean fpr,
                 Some (shape, loc, scale))
            | Ok p =>
                (if out_of_range (neg p) scores_clean scores
                 then percentile_fallback scores_clean fpr
                 else neg p,
                 Some (shape, loc, scale))
            end
      end.

Definition fit_evt_models_robust (classifier : classifier_t)
    (tokenizer : tokenizer_t) (losses : list float)
    (sentences : list sentence) (true_classes : list Z) (max_length : Z)
    (fpr contamination_ratio : float)
  : gmap Z float * gmap Z gev_model :=
  let class_to_samples :=
    class_to_samples_robust classifier tokenizer losses sentences
      true_classes max_length in
  fold_left (robust_step fpr) (map_to_list class_to_samples) (∅, ∅).

(** *** [predict] *)

Definition classifier_label (classifier : classifier_t)
    (tokenizer : tokenizer_t) (max_length : Z) (sen : sentence) : Z :=
  Z.of_nat
    (np_argmax (classifier (__predict_preprocess__ sen tokenizer max_length))).

Definition predict_step (classifier : classifier_t) (tokenizer : tokenizer_t)
    (threshold : float) (ood_label : Z) (max_length : Z)
    (labels : list Z) (item : float * sentence) : list Z :=
  let '(loss, sen) := item in
  if leb loss threshold
  then labels ++ [classifier_label classifier tokenizer max_length sen]
  else labels ++ [ood_label].

Definition predict (classifier : classifier_t) (tokenizer : tokenizer_t)
    (losses : list float) (sentences : list sentence) (threshold : float)
    (ood_label : Z) (max_length : Z) : list Z :=
  fold_left (predict_step classifier tokenizer threshold ood_label max_length)
    (zip losses sentences) [].

(** The label one pair contributes. *)
Definition decision (classifier : classifier_t) (tokenizer : tokenizer_t)
    (threshold : float) (ood_label : Z) (max_length : Z)
    (loss : float) (sen : sentence) : Z :=
  if leb loss threshold
  then classifier_label classifier tokenizer max_length sen
  else ood_label.

End Fitters.

(** A binary64 number in canonical form (normalised mantissa, exponent in
    range), as every value that NumPy holds is. *)
Definition canonical64 (x : float) : bool := valid_binary prec emax x.

(** ** The rest of [fit_evt_models] and the evaluation block of [run] *)

Section StandardFit.

Context {libs : Libraries}.
Context {sentence model_inputs : Type}.

(** The scores that a grouping loop collects for one class: those produced
    for the examples labelled with the class, in the order of the input. *)
Definition class_scores (build : float -> sentence -> builder_outcome)
    (cls : Z) (items : list (float * sentence * Z)) : list float :=
  omap (fun item : float * sentence * Z =>
          let '(loss, sen, c) := item in
          if decide (c = cls)
          then match build loss sen with
               | Produced ood_score => Some ood_score
               | _ => None
               end
          else None)
       items.

(** The loop of [fit_evt_models] over [class_to_samples.items()].  Nothing
    is caught: an exception of the fit or of the quantile ends the call. *)
Fixpoint standard_loop (fpr : float) (items : list (Z * list float))
    (st : gmap Z float * gmap Z gev_model)
  : result (gmap Z float * gmap Z gev_model) :=
  match items with
  | [] => Ok st
  | (cls, scores) :: items' =>
      let '(thresholds, evt_models) := st in
      let scores_array := scores in
      match genextreme_fit (map neg scores_array) with
      | Raised => Raised
      | Ok (shape, loc, scale) =>
          let evt_models := <[cls := (shape, loc, scale)]> evt_models in
          match genextreme_ppf (sub f1 fpr) shape loc scale with
          | Raised => Raised
          | Ok p =>
              let threshold := neg p in
              standard_loop fpr items'
                (<[cls := threshold]> thresholds, evt_models)
          end
      end
  end.

Definition fit_evt_models (classifier : @classifier_t model_inputs)
    (tokenizer : @tokenizer_t sentence model_inputs) (losses : list float)
    (sentences : list sentence) (true_classes : list Z) (max_length : Z)
    (fpr : float) : result (gmap Z float * gmap Z gev_model) :=
  let class_to_samples :=
    class_to_samples_standard classifier tokenizer losses sentences
      true_classes max_length in
  standard_loop fpr (map_to_list class_to_samples) (∅, ∅).

(** The evaluation block of [run], shared by the EVT and the fixed
    threshold branches; [ood_label] is [len(in_lbl_2_indx)]. *)
Definition y_pred_binary (eval_losses : list float) (threshold : float)
  : list Z :=
  map (fun loss => if leb loss threshold then 0 else 1) eval_losses.

Definition y_true_binary (test_sentences ood_sentences : list sentence)
  : list Z :=
  replicate (length test_sentences) 0 ++ replicate (length ood_sentences) 1.

Definition y_pred_multiclass (classifier : @classifier_t model_inputs)
    (tokenizer : @tokenizer_t sentence model_inputs)
    (normalized_test_loss normalized_ood_loss : list float)
    (test_sentences ood_sentences : list sentence) (threshold : float)
    (ood_label max_length : Z) : list Z :=
  let eval_losses := normalized_test_loss ++ normalized_ood_loss in
  let eval_sentences := test_sentences ++ ood_sentences in
  predict classifier tokenizer eval_losses eval_sentences threshold ood_label
    max_length.

(** [[in_lbl_2_indx[i] for i in test_intents] + [len(in_lbl_2_indx)] *
    len(ood_sentences)]; a test intent that is not a key raises
    [KeyError]. *)
Definition y_true_multiclass `{Countable intent}
    (in_lbl_2_indx : gmap intent Z) (test_intents : list intent)
    (ood_sentences : list sentence) : result (list Z) :=
  match mapM (fun i => in_lbl_2_indx !! i) test_intents with
  | Some known =>
      Ok (known
          ++ replicate (length ood_sentences) (Z.of_nat (size in_lbl_2_indx)))
  | None => Raised
  end.

End StandardFit.

(** ** Sample collaborators and inputs

    Concrete collaborators on which the definitions above can be run. *)

Module Samples.

(** NumPy's default percentile (method [linear]) on a one-dimensional
    array: the array is sorted, the virtual index is [(n - 1) * q / 100],
    and the result interpolates between the two neighbouring elements. *)
Fixpoint insert_sorted (x : float) (xs : list float) : list float :=
  match xs with
  | [] => [x]
  | y :: ys => if leb x y then x :: xs else y :: insert_sorted x ys
  end.

Definition sort_floats (xs : list float) : list float :=
  fold_right insert_sorted [] xs.

Definition floor_index (x : float) : nat :=
  match x with
  | S754_finite false m e => Z.to_nat (Z.shiftl (Z.pos m) e)
  | _ => 0%nat
  end.

Definition lerp (a b t : float) : float :=
  if leb f0_5 t then sub b (mul (sub b a) (sub f1 t))
  else add a (mul (sub b a) t).

Definition percentile_linear (a : list float) (q : float) : float :=
  let arr := sort_floats a in
  let n := length arr in
  let virtual_index := mul (of_Z (Z.of_nat n - 1)) (div q f100) in
  let previous_index := floor_index virtual_index in
  let next_index := Nat.min (S previous_index) (n - 1) in
  let gamma := sub virtual_index (of_Z (Z.of_nat previous_index)) in
  lerp (nth previous_index arr nan) (nth next_index arr nan) gamma.

(** The softmax of saturated logits: 1 at the greatest logit, 0 elsewhere. *)
Definition softmax_saturated (logits : list float) : list float :=
  imap (fun i _ => if (i =? np_argmax logits)%nat then f1 else f0) logits.

(** A softmax that answers NaN, as it does on logits that hold a NaN. *)
Definition softmax_nan (logits : list float) : list float :=
  map (fun _ => nan) logits.

(** A fit that always answers the given parameters, and a quantile that
    answers [loc + scale]. *)
Definition fit_const (g : gev_model) (data : list float) : result gev_model :=
  Ok g.
Definition ppf_loc_scale (q c loc scale : float) : result float :=
  Ok (add loc scale).

Definition sample_libs (fit : list float -> result gev_model) : Libraries :=
  {| softmax := softmax_saturated;
     np_percentile := percentile_linear;
     genextreme_fit := fit;
     genextreme_ppf := ppf_loc_scale |}.

(** Collaborators whose percentile answers NaN: the IQR bounds are then NaN
    and no score passes the outlier test. *)
Definition nan_percentile_libs : Libraries :=
  {| softmax := softmax_saturated;
     np_percentile := fun _ _ => nan;
     genextreme_fit := fit_const (f0, f0, f1);
     genextreme_ppf := ppf_loc_scale |}.

Definition nan_softmax_libs : Libraries :=
  {| softmax := softmax_nan;
     np_percentile := percentile_linear;
     genextreme_fit := fit_const (f0, f0, f1);
     genextreme_ppf := ppf_loc_scale |}.

(** Sentences and model inputs are token numbers; the classifier is
    certain of class 0. *)
Definition tokenizer : @tokenizer_t nat nat := fun sen _ => sen.
Definition classifier : @classifier_t nat :=
  fun _ => [of_Z 40; of_Z (-40)].

(** A VAE whose loss is read off the first tensor of the batch: a negative
    tensor makes the forward pass raise, an even one yields NaN. *)
Definition vae (b : batch Z) : result losses_attr :=
  let '(x, _, _) := b in
  if (x <? 0)%Z then Raised
  else if Z.even x then Ok (LossList [nan])
  else Ok (LossList [of_Z x]).

(** Ten examples of class 0 with normalized loss [-0.5]: the ensemble
    scores are all [-0.25]. *)
Definition negative_losses : list float := replicate 10 (neg f0_5).
(** Ten examples of class 0 with normalized losses 0.1 .. 1.0 (in tenths
    rounded to binary64). *)
Definition spread_losses : list float :=
  map (fun k => div (of_Z k) f10) [1; 2; 3; 4; 5; 6; 7; 8; 9; 10].
Definition ten_sentences : list nat := replicate 10 0%nat.
Definition ten_classes : list Z := replicate 10 0.

End Samples.

Module MoreSamples.

Import Samples.

(** Collaborators whose fit always raises. *)
Definition raising_fit_libs : Libraries :=
  {| softmax := softmax_saturated;
     np_percentile := percentile_linear;
     genextreme_fit := fun _ => Raised;
     genextreme_ppf := ppf_loc_scale |}.

(** Three examples, two of class 0 around one of class 1, and the same
    followed by a fourth example of class 2. *)
Definition three_losses : list float := take 3 spread_losses.
Definition three_sentences : list nat := [0; 1; 2]%nat.
Definition three_classes : list Z := [0; 1; 0].
Definition four_losses : list float := take 4 spread_losses.
Definition four_sentences : list nat := [0; 1; 2; 3]%nat.
Definition four_classes : list Z := [0; 1; 0; 2].

(** Three batches, the second of which yields a NaN loss. *)
Definition skipping_data : list (batch Z) := [(1, 0, 0); (2, 0, 0); (3, 0, 0)].

(** Two known intents, numbered 0 and 1. *)
Definition two_intents : gmap nat Z := <[1%nat := 1]> (<[0%nat := 0]> ∅).

End MoreSamples.

(** * Properties *)

(** ** Comparisons and special values of binary64 *)

Section FloatFacts.

Lemma SFcompare_swap (x y : float) :
  SFcompare y x = option_map CompOpp (SFcompare x y).
Proof.
  destruct x as [sx | sx | | sx mx ex], y as [sy | sy | | sy my ey];
    simpl; try reflexivity;
    try (destruct sx; reflexivity); try (destruct sy; reflexivity);
    try (destruct sx, sy; reflexivity).
  destruct sx, sy; simpl; try reflexivity;
    rewrite (Z.compare_antisym ex ey);
    destruct (ex ?= ey)%Z eqn:He; simpl; try reflexivity;
    change (Pos.compare_cont Eq my mx) with (my ?= mx)%positive;
    change (Pos.compare_cont Eq mx my) with (mx ?= my)%positive;
    rewrite (Pos.compare_antisym mx my);
    destruct (mx ?= my)%positive; reflexivity.
Qed.

Lemma SFcompare_nan_iff (x y : float) :
  SFcompare x y = None <-> isnan x = true \/ isnan y = true.
Proof.
  destruct x as [sx | sx | | sx mx ex], y as [sy | sy | | sy my ey];
    simpl; split; intros H; try discriminate; auto;
    destruct H; discriminate.
Qed.

(** [x > y] excludes [x <= y]. *)
Lemma gtb_true_leb_false (x y : float) : gtb x y = true -> leb x y = false.
Proof.
  unfold gtb, leb, SFltb, SFleb. rewrite (SFcompare_swap x y).
  destruct (SFcompare x y) as [[]|]; simpl; congruence.
Qed.

Lemma leb_true_gtb_false (x y : float) : leb x y = true -> gtb x y = false.
Proof.
  intros H. destruct (gtb x y) eqn:G; [|reflexivity].
  apply gtb_true_leb_false in G. congruence.
Qed.

(** Without a NaN the order is total. *)
Lemma gtb_false_leb_true (x y : float) :
  isnan x = false -> isnan y = false -> gtb x y = false -> leb x y = true.
Proof.
  intros Hx Hy. unfold gtb, leb, SFltb, SFleb. rewrite (SFcompare_swap x y).
  destruct (SFcompare x y) as [[]|] eqn:E; simpl; try congruence.
  apply SFcompare_nan_iff in E. destruct E; congruence.
Qed.

Lemma leb_false_gtb_true (x y : float) :
  isnan x = false -> isnan y = false -> leb x y = false -> gtb x y = true.
Proof.
  intros Hx Hy. unfold gtb, leb, SFltb, SFleb. rewrite (SFcompare_swap x y).
  destruct (SFcompare x y) as [[]|] eqn:E; simpl; try congruence.
  apply SFcompare_nan_iff in E. destruct E; congruence.
Qed.

Lemma isnan_abs (x : float) : isnan (abs x) = isnan x.
Proof. destruct x; reflexivity. Qed.

Lemma isnan_true (x : float) : isnan x = true -> x = nan.
Proof. destruct x; simpl; intros H; try discriminate H; reflexivity. Qed.

(** NaN is absorbing for the arithmetic of the ensemble score. *)
Lemma mul_nan_r (x : float) : mul x nan = nan.
Proof. destruct x; reflexivity. Qed.

Lemma sub_nan_r (x : float) : sub x nan = nan.
Proof. destruct x; reflexivity. Qed.

Lemma add_nan_l (x : float) : add nan x = nan.
Proof. reflexivity. Qed.

Lemma add_nan_r (x : float) : add x nan = nan.
Proof. destruct x; reflexivity. Qed.

(** A value that is neither NaN nor infinite is a finite number. *)
Lemma not_nan_inf_finite (x : float) :
  isnan x || isinf x = false -> isfinite x = true.
Proof. destruct x; simpl; intros H; try discriminate H; reflexivity. Qed.

End FloatFacts.

(** ** The order of binary64 and the reductions [np.min], [np.max] *)

Section FloatOrderFacts.

Lemma leb_trans (x y z : float) :
  leb x y = true -> leb y z = true -> leb x z = true.
Proof.
  unfold leb, SFleb.
  destruct x as [sx | sx | | sx mx ex], y as [sy | sy | | sy my ey],
    z as [sz | sz | | sz mz ez]; simpl;
    try discriminate; try reflexivity;
    try (destruct sx; simpl; try discriminate; try reflexivity);
    try (destruct sy; simpl; try discriminate; try reflexivity);
    try (destruct sz; simpl; try discriminate; try reflexivity).
  all: change (Pos.compare_cont Eq mx my) with (mx ?= my)%positive;
    change (Pos.compare_cont Eq my mz) with (my ?= mz)%positive;
    change (Pos.compare_cont Eq mx mz) with (mx ?= mz)%positive.
  all: destruct (Z.compare_spec ex ey), (Z.compare_spec ey ez),
         (Z.compare_spec ex ez); try lia; simpl; try discriminate;
         try reflexivity.
  all: destruct (Pos.compare_spec mx my), (Pos.compare_spec my mz),
         (Pos.compare_spec mx mz); try lia; simpl; try discriminate;
         try reflexivity.
Qed.

Lemma leb_refl (x : float) : isnan x = false -> leb x x = true.
Proof.
  unfold leb, SFleb.
  destruct x as [s | s | | s m e]; simpl; try discriminate; intros _;
    try reflexivity; destruct s; try reflexivity;
    rewrite Z.compare_refl;
    change (Pos.compare_cont Eq m m) with (m ?= m)%positive;
    now rewrite Pos.compare_refl.
Qed.

Lemma ltb_leb (x y : float) : ltb x y = true -> leb x y = true.
Proof.
  unfold ltb, leb, SFltb, SFleb.
  now destruct (SFcompare x y) as [[]|].
Qed.

Lemma leb_true_not_nan (x y : float) :
  leb x y = true -> isnan x = false /\ isnan y = false.
Proof.
  unfold leb, SFleb. destruct (SFcompare x y) eqn:E; [|discriminate].
  intros _. destruct (isnan x) eqn:Hx, (isnan y) eqn:Hy; auto;
    assert (SFcompare x y = None) by (apply SFcompare_nan_iff; auto);
    congruence.
Qed.

(** [x <= y] excludes [y < x]. *)
Lemma leb_true_ltb_false (x y : float) : leb x y = true -> ltb y x = false.
Proof. intros H. exact (leb_true_gtb_false x y H). Qed.

Lemma ltb_false_leb_true (x y : float) :
  isnan x = false -> isnan y = false -> ltb y x = false -> leb x y = true.
Proof. intros Hx Hy H. exact (gtb_false_leb_true x y Hx Hy H). Qed.

Lemma isfinite_not_nan (x : float) : isfinite x = true -> isnan x = false.
Proof. now destruct x. Qed.

Lemma max2_spec (a b : float) :
  isnan a = false -> isnan b = false ->
  (max2 a b = a \/ max2 a b = b)
  /\ leb a (max2 a b) = true /\ leb b (max2 a b) = true.
Proof.
  intros Ha Hb. unfold max2. rewrite Ha, Hb.
  destruct (ltb a b) eqn:E.
  - split; [now right|]. split; [now apply ltb_leb | now apply leb_refl].
  - split; [now left|]. split; [now apply leb_refl|].
    now apply ltb_false_leb_true.
Qed.

Lemma min2_not_nan (a b : float) :
  isnan a = false -> isnan b = false -> isnan (min2 a b) = false.
Proof.
  intros Ha Hb. unfold min2. rewrite Ha, Hb. now destruct (ltb b a).
Qed.

Lemma fold_max2_spec (xs : list float) :
  forall a,
    isnan a = false -> Forall (fun x => isnan x = false) xs ->
    fold_left max2 xs a ∈ a :: xs
    /\ Forall (fun x => leb x (fold_left max2 xs a) = true) (a :: xs).
Proof.
  induction xs as [|x xs IH]; intros a Ha Hxs.
  - cbn. split; [apply elem_of_cons; now left|].
    constructor; [now apply leb_refl | constructor].
  - apply Forall_cons in Hxs as [Hx Hxs]. cbn [fold_left].
    destruct (max2_spec a x Ha Hx) as (Hsel & Hla & Hlx).
    assert (Hm : isnan (max2 a x) = false)
      by (destruct Hsel as [-> | ->]; assumption).
    destruct (IH (max2 a x) Hm Hxs) as [Hin Hub].
    apply Forall_cons in Hub as [Hm' Hub]. split.
    + apply elem_of_cons in Hin as [-> | Hin].
      * destruct Hsel as [-> | ->]; [apply elem_of_cons; now left|].
        apply elem_of_cons; right. apply elem_of_cons; now left.
      * apply elem_of_cons; right. apply elem_of_cons; now right.
    + constructor; [exact (leb_trans _ _ _ Hla Hm')|].
      constructor; [exact (leb_trans _ _ _ Hlx Hm') | exact Hub].
Qed.

(** Without NaN, [np.max] is an element of the array and no element is
    above it. *)
Lemma np_max_spec (xs : list float) :
  xs <> [] -> Forall (fun x => isnan x = false) xs ->
  np_max xs ∈ xs /\ Forall (fun x => leb x (np_max xs) = true) xs.
Proof.
  destruct xs as [|a xs]; [congruence|]. intros _ Hxs.
  apply Forall_cons in Hxs as [Ha Hxs]. now apply fold_max2_spec.
Qed.

Lemma np_min_not_nan (xs : list float) :
  xs <> [] -> Forall (fun x => isnan x = false) xs ->
  isnan (np_min xs) = false.
Proof.
  destruct xs as [|a xs]; [congruence|]. intros _ Hxs.
  apply Forall_cons in Hxs as [Ha Hxs]. cbn [np_min].
  revert a Ha. induction xs as [|x xs IH]; intros a Ha; [exact Ha|].
  apply Forall_cons in Hxs as [Hx Hxs]. cbn [fold_left].
  apply IH; [exact Hxs | now apply min2_not_nan].
Qed.

(** The maximum of a sub-array is not above the maximum of the array. *)
Lemma np_max_filter (keep : float -> bool) (xs : list float) :
  List.filter keep xs <> [] -> Forall (fun x => isnan x = false) xs ->
  leb (np_max (List.filter keep xs)) (np_max xs) = true.
Proof.
  intros Hne Hxs.
  assert (Hxs' : Forall (fun x => isnan x = false) (List.filter keep xs)).
  { rewrite Forall_forall in *. intros x Hx. apply Hxs.
    apply list_elem_of_In, filter_In in Hx. now apply list_elem_of_In. }
  assert (Hne' : xs <> []) by (intros ->; now apply Hne).
  destruct (np_max_spec _ Hne Hxs') as [Hin _].
  destruct (np_max_spec _ Hne' Hxs) as [_ Hub].
  rewrite Forall_forall in Hub. apply Hub.
  apply list_elem_of_In, filter_In in Hin. now apply list_elem_of_In.
Qed.

(** *** Doubling a canonical number *)

Lemma mul_pow52 (m : positive) :
  (m * 4503599627370496)%positive = Pos.iter xO m 52%positive.
Proof. rewrite Pos.mul_comm. reflexivity. Qed.

Lemma digits_shift52 (m : positive) :
  Zpos (digits2_pos (Pos.iter xO m 52%positive)) = Zpos (digits2_pos m) + 52.
Proof. cbn [Pos.iter digits2_pos]. lia. Qed.

(** Twice a positive canonical number: the exponent goes up by one (or the
    result overflows) for a normal number, the mantissa doubles for a
    subnormal one. *)
Lemma double_finite (m : positive) (e : Z) :
  bounded prec emax m e = true ->
  mul (S754_finite false m e) f2
  = if (Zpos (digits2_pos m) =? 53)
    then if (e + 1 <=? 971) then S754_finite false m (e + 1)
         else S754_infinity false
    else S754_finite false (m~0) e.
Proof.
  unfold bounded, canonical_mantissa, fexp, emin, prec, emax.
  intros H. apply andb_true_iff in H as [Hc He].
  apply Z.eqb_eq in Hc. apply Z.leb_le in He.
  unfold mul, f2, of_Z, of_scaled.
  change (binary_normalize prec emax 2 0 false)
    with (S754_finite false 4503599627370496 (-51)).
  cbn [SFmul xorb]. rewrite mul_pow52.
  unfold binary_round_aux, shr_fexp, fexp, emin, prec, emax.
  cbn [Zdigits2 shr_record_of_loc]. rewrite digits_shift52.
  set (d := Zpos (digits2_pos m)) in *.
  destruct (Z.eqb_spec d 53) as [Hd | Hd].
  - match goal with |- context [shr _ _ ?n] =>
      replace n with 52 by lia end.
    cbn [shr SpecFloat.iter_pos shr_1 Pos.iter orb shr_m loc_of_shr_record
           round_nearest_even shr_record_of_loc].
    match goal with |- context [shr _ _ ?n] =>
      replace n with 0 by (cbn [Zdigits2]; fold d; lia) end.
    cbn [shr shr_m].
    replace (e + -51 + 52) with (e + 1) by lia. reflexivity.
  - assert (Hd' : d <= 52).
    { assert (0 < d) by (subst d; lia). lia. }
    match goal with |- context [shr _ _ ?n] =>
      replace n with 51 by lia end.
    cbn [shr SpecFloat.iter_pos shr_1 Pos.iter orb shr_m loc_of_shr_record
           round_nearest_even shr_record_of_loc].
    match goal with |- context [shr _ _ ?n] =>
      replace n with 0
        by (cbn [Zdigits2 digits2_pos]; rewrite Pos2Z.inj_succ; fold d; lia)
    end.
    cbn [shr shr_m].
    replace (e + -51 + 51) with e by lia.
    assert (He' : (e <=? 1024 - 53) = true) by (apply Z.leb_le; lia).
    now rewrite He'.
Qed.

(** A canonical number that is not negative is not above its double. *)
Lemma double_not_below (x : float) :
  canonical64 x = true -> leb f0 x = true -> leb x (mul x f2) = true.
Proof.
  destruct x as [s | s | | s m e]; try discriminate.
  - intros _ _. now destruct s.
  - destruct s; [discriminate|]. reflexivity.
  - destruct s; [discriminate|]. intros Hv _.
    unfold canonical64 in Hv. cbn [valid_binary] in Hv.
    rewrite (double_finite m e Hv).
    destruct (Zpos (digits2_pos m) =? 53).
    + destruct (e + 1 <=? 971); [|reflexivity].
      unfold leb, SFleb. cbn [SFcompare].
      now replace (e ?= e + 1) with Lt
        by (symmetry; apply Z.compare_lt_iff; lia).
    + unfold leb, SFleb. cbn [SFcompare]. rewrite Z.compare_refl.
      change (Pos.compare_cont Eq m m~0) with (m ?= m~0)%positive.
      now replace (m ?= m~0)%positive with Lt
        by (symmetry; apply Pos.compare_lt_iff; lia).
Qed.

End FloatOrderFacts.

(** ** The loss collector *)

Section LossCollectorFacts.

Variable tensor : Type.
Variable model : batch tensor -> result losses_attr.

Lemma invalid_example_iff (b : batch tensor) :
  invalid_example model b <-> valid_loss model b = None.
Proof.
  unfold invalid_example, valid_loss. split.
  - intros [-> | (v & -> & Hv)]; [reflexivity|].
    destruct Hv as [-> | ->]; [reflexivity|].
    now rewrite orb_true_r.
  - destruct (extract_loss model b) as [v|]; [|now left].
    destruct (isnan v || isinf v) eqn:E; [|discriminate].
    intros _. right. exists v. split; [reflexivity|].
    now apply orb_true_iff.
Qed.

(** A step either appends the valid loss or counts one skip. *)
Lemma loss_step_spec (losses : list float) (skipped_count : nat) (b : batch tensor) :
  loss_step model (losses, skipped_count) b =
    match valid_loss model b with
    | Some v => (losses ++ [v], skipped_count)
    | None => (losses, S skipped_count)
    end.
Proof.
  unfold loss_step, valid_loss.
  destruct (extract_loss model b) as [v|]; [|reflexivity].
  now destruct (isnan v || isinf v).
Qed.

Lemma loss_fold_spec (data : list (batch tensor)) :
  forall (losses : list float) (skipped_count : nat),
    fold_left (loss_step model) data (losses, skipped_count) =
      (losses ++ omap (valid_loss model) data,
       (skipped_count + invalid_count model data)%nat).
Proof.
  induction data as [|b data IH]; intros losses skipped_count.
  - simpl. unfold invalid_count. simpl.
    now rewrite app_nil_r, Nat.add_0_r.
  - cbn [fold_left]. rewrite loss_step_spec.
    unfold invalid_count, is_valid in *. cbn [omap list_omap List.filter].
    destruct (valid_loss model b) as [v|] eqn:Hb; rewrite IH; cbn [negb length].
    + now rewrite <- app_assoc.
    + f_equal. lia.
Qed.

Lemma loss_loop_spec (data : list (batch tensor)) :
  loss_loop model data = (omap (valid_loss model) data, invalid_count model data).
Proof. unfold loss_loop. now rewrite loss_fold_spec. Qed.

Lemma length_omap_valid (data : list (batch tensor)) :
  length (omap (valid_loss model) data) = valid_count model data.
Proof.
  unfold valid_count, is_valid.
  induction data as [|b data IH]; [reflexivity|].
  cbn [omap list_omap List.filter].
  destruct (valid_loss model b); cbn [length]; now rewrite ?IH.
Qed.

Lemma valid_invalid_total (data : list (batch tensor)) :
  (valid_count model data + invalid_count model data
   = length data)%nat.
Proof.
  unfold valid_count, invalid_count.
  induction data as [|b data IH]; [reflexivity|].
  cbn [List.filter]. destruct (is_valid model b); cbn [negb length]; lia.
Qed.

Lemma omap_valid_nil (data : list (batch tensor)) :
  omap (valid_loss model) data = [] <-> Forall (invalid_example model) data.
Proof.
  induction data as [|b data IH].
  - split; [constructor | reflexivity].
  - cbn [omap list_omap]. split.
    + destruct (valid_loss model b) eqn:Hb; [discriminate|].
      intros H. constructor; [now apply invalid_example_iff | now apply IH].
    + intros H. inversion H as [|? ? Hb Hrest]; subst.
      apply invalid_example_iff in Hb. rewrite Hb. now apply IH.
Qed.

Lemma omap_valid_finite (data : list (batch tensor)) :
  Forall (fun v => isfinite v = true) (omap (valid_loss model) data).
Proof.
  induction data as [|b data IH]; [constructor|].
  cbn [omap list_omap]. destruct (valid_loss model b) as [v|] eqn:Hb; [|exact IH].
  constructor; [|exact IH].
  unfold valid_loss in Hb.
  destruct (extract_loss model b) as [w|]; [|discriminate].
  destruct (isnan w || isinf w) eqn:E; [discriminate|].
  injection Hb as <-. now apply not_nan_inf_finite.
Qed.

Lemma compute_loss_safe_spec (data : list (batch tensor)) :
  compute_loss_safe model data =
    match omap (valid_loss model) data with
    | [] => [f10]
    | losses => losses
    end.
Proof.
  unfold compute_loss_safe. rewrite loss_loop_spec.
  now destruct (omap (valid_loss model) data).
Qed.

(** C5: when every example is invalid, because its extraction raises or
    its loss is NaN or infinite, the collector returns exactly the
    one-element population [[10.0]]. *)
Theorem compute_loss_safe_all_invalid (data : list (batch tensor)) :
  Forall (invalid_example model) data ->
  compute_loss_safe model data = [f10].
Proof.
  intros H. rewrite compute_loss_safe_spec.
  apply omap_valid_nil in H. now rewrite H.
Qed.

(** C6: on a sequence with at least one valid example, an invalid example
    only increments the skip counter and the loop goes on with the next
    one; the output is the list of the valid losses in order, its length
    is the number of valid examples, the counter ends at the number of
    invalid ones, and valid plus skipped is the number of examples seen. *)
Theorem compute_loss_safe_skips_invalid (data : list (batch tensor)) :
  Exists (fun b => is_valid model b = true) data ->
  (forall losses skipped_count b,
      invalid_example model b ->
      loss_step model (losses, skipped_count) b = (losses, S skipped_count))
  /\ (forall pre b post,
        data = pre ++ b :: post ->
        loss_loop model data = fold_left (loss_step model) post (loss_step model (loss_loop model pre) b))
  /\ compute_loss_safe model data = fst (loss_loop model data)
  /\ compute_loss_safe model data = omap (valid_loss model) data
  /\ length (compute_loss_safe model data) = valid_count model data
  /\ snd (loss_loop model data) = invalid_count model data
  /\ (valid_count model data + snd (loss_loop model data) = length data)%nat.
Proof.
  intros Hex.
  assert (Hne : omap (valid_loss model) data <> []).
  { intros Hnil. apply omap_valid_nil in Hnil.
    apply Exists_exists in Hex as (b & Hin & Hb).
    rewrite Forall_forall in Hnil. specialize (Hnil b Hin).
    apply invalid_example_iff in Hnil.
    unfold is_valid in Hb. rewrite Hnil in Hb. discriminate. }
  assert (Hout : compute_loss_safe model data = omap (valid_loss model) data).
  { rewrite compute_loss_safe_spec. now destruct (omap (valid_loss model) data). }
  repeat split.
  - intros losses skipped_count b Hb. rewrite loss_step_spec.
    apply invalid_example_iff in Hb. now rewrite Hb.
  - intros pre b post ->. unfold loss_loop.
    now rewrite fold_left_app.
  - now rewrite Hout, loss_loop_spec.
  - exact Hout.
  - rewrite Hout. apply length_omap_valid.
  - now rewrite loss_loop_spec.
  - rewrite loss_loop_spec. apply valid_invalid_total.
Qed.

(** C9: whatever the input, the returned population is not empty and all
    its elements are finite numbers, be they collected losses or the
    sentinel. *)
Theorem compute_loss_safe_nonempty_finite (data : list (batch tensor)) :
  compute_loss_safe model data <> []
  /\ Forall (fun v => isfinite v = true) (compute_loss_safe model data).
Proof.
  rewrite compute_loss_safe_spec.
  pose proof (omap_valid_finite data) as Hfin.
  destruct (omap (valid_loss model) data) as [|v losses].
  - split; [discriminate|]. constructor; [reflexivity | constructor].
  - split; [discriminate | exact Hfin].
Qed.

End LossCollectorFacts.

(** ** The robust fitter *)

Section FitterFacts.

Context {libs : Libraries}.
Context {sentence model_inputs : Type}.

Implicit Types (thresholds : gmap Z float) (evt_models : gmap Z gev_model).
Implicit Types (items : list (Z * list float)) (scores : list float).
Implicit Types (cls : Z) (fpr : float).

(** An iteration writes the outcome of its class under its own key. *)
Lemma robust_step_outcome fpr thresholds evt_models cls scores :
  robust_step fpr (thresholds, evt_models) (cls, scores) =
    (<[cls := (class_outcome fpr scores).1]> thresholds,
     match (class_outcome fpr scores).2 with
     | Some g => <[cls := g]> evt_models
     | None => evt_models
     end).
Proof.
  unfold robust_step, class_outcome.
  destruct (length scores <? 10)%nat; [reflexivity|].
  destruct (length (remove_outliers scores) <? 5)%nat; [reflexivity|].
  destruct (genextreme_fit _) as [[[shape loc] scale]|]; [|reflexivity].
  destruct (unreasonable shape scale); [reflexivity|].
  destruct (genextreme_ppf _ _ _ _) as [p|]; reflexivity.
Qed.

Lemma robust_step_other fpr thresholds evt_models cls scores cls' :
  cls <> cls' ->
  (robust_step fpr (thresholds, evt_models) (cls, scores)).1 !! cls'
    = thresholds !! cls'
  /\ (robust_step fpr (thresholds, evt_models) (cls, scores)).2 !! cls'
    = evt_models !! cls'.
Proof.
  intros Hne. rewrite robust_step_outcome. cbn [fst snd]. split.
  - now rewrite lookup_insert_ne.
  - destruct (class_outcome fpr scores).2; [|reflexivity].
    now rewrite lookup_insert_ne.
Qed.

(** Classes that are not iterated over keep what the dictionaries held. *)
Lemma robust_fold_other fpr items cls :
  cls ∉ items.*1 ->
  forall thresholds evt_models,
    (fold_left (robust_step fpr) items (thresholds, evt_models)).1 !! cls
      = thresholds !! cls
    /\ (fold_left (robust_step fpr) items (thresholds, evt_models)).2 !! cls
      = evt_models !! cls.
Proof.
  induction items as [|[c sc] items IH]; intros Hnotin thresholds evt_models.
  - split; reflexivity.
  - cbn [fmap list_fmap fst] in Hnotin.
    apply not_elem_of_cons in Hnotin as [Hne Hnotin].
    cbn [fold_left].
    destruct (robust_step fpr (thresholds, evt_models) (c, sc))
      as [th1 ms1] eqn:Hstep.
    destruct (IH Hnotin th1 ms1) as [-> ->].
    destruct (robust_step_other fpr thresholds evt_models c sc cls) as [H1 H2];
      [congruence|].
    rewrite Hstep in H1, H2. cbn [fst snd] in H1, H2. now split.
Qed.

(** With pairwise distinct keys, the final dictionaries hold at each
    iterated class the outcome computed from its scores. *)
Lemma robust_fold_lookup fpr items :
  NoDup items.*1 ->
  forall thresholds evt_models cls scores,
    (cls, scores) ∈ items ->
    (fold_left (robust_step fpr) items (thresholds, evt_models)).1 !! cls
      = Some (class_outcome fpr scores).1
    /\ (fold_left (robust_step fpr) items (thresholds, evt_models)).2 !! cls
      = match (class_outcome fpr scores).2 with
        | Some g => Some g
        | None => evt_models !! cls
        end.
Proof.
  induction items as [|[c sc] items IH];
    intros Hnd thresholds evt_models cls scores Hin.
  - now apply elem_of_nil in Hin.
  - cbn [fmap list_fmap fst] in Hnd. apply NoDup_cons in Hnd as [Hc Hnd].
    cbn [fold_left]. apply elem_of_cons in Hin as [Heq | Hin].
    + injection Heq as -> ->.
      rewrite robust_step_outcome.
      edestruct (robust_fold_other fpr items c Hc) as [-> ->].
      split; [now rewrite lookup_insert_eq|].
      destruct (class_outcome fpr sc).2; [|reflexivity].
      now rewrite lookup_insert_eq.
    + assert (Hne : c <> cls).
      { intros ->. apply Hc. apply list_elem_of_fmap.
        now exists (cls, scores). }
      destruct (robust_step fpr (thresholds, evt_models) (c, sc))
        as [th1 ms1] eqn:Hstep.
      destruct (IH Hnd th1 ms1 cls scores Hin) as [-> ->].
      split; [reflexivity|].
      destruct (class_outcome fpr scores).2; [reflexivity|].
      destruct (robust_step_other fpr thresholds evt_models c sc cls Hne)
        as [_ H2].
      now rewrite Hstep in H2.
Qed.

(** *** The grouping loop *)

Lemma append_sample_lookup cls (ood_score : float)
    (class_to_samples : gmap Z (list float)) cls' :
  append_sample cls ood_score class_to_samples !! cls' =
    if decide (cls = cls')
    then Some (default [] (class_to_samples !! cls) ++ [ood_score])
    else class_to_samples !! cls'.
Proof.
  unfold append_sample. rewrite lookup_alter.
  destruct (decide (cls = cls')) as [<-|Hne].
  - destruct (class_to_samples !! cls) as [l|] eqn:E; cbn [default].
    + now rewrite E.
    + now rewrite lookup_insert_eq.
  - destruct (class_to_samples !! cls); [reflexivity|].
    now rewrite lookup_insert_ne.
Qed.

(** The robust builder only produces finite scores. *)
Lemma build_score_robust_finite (classifier : @classifier_t model_inputs)
    (tokenizer : @tokenizer_t sentence model_inputs) max_length loss sen s :
  build_score_robust classifier tokenizer max_length loss sen = Produced s ->
  isfinite s = true.
Proof.
  unfold build_score_robust.
  destruct (isnan loss || isinf loss); [discriminate|].
  destruct (isnan _ || isinf _) eqn:E; [discriminate|].
  intros [= <-]. now apply not_nan_inf_finite.
Qed.

Lemma group_fold_finite (classifier : @classifier_t model_inputs)
    (tokenizer : @tokenizer_t sentence model_inputs) max_length
    (items : list (float * sentence * Z)) :
  forall class_to_samples,
    finite_samples class_to_samples ->
    finite_samples
      (fold_left
         (group_step (build_score_robust classifier tokenizer max_length))
         items class_to_samples).
Proof.
  induction items as [|[[loss sen] c] items IH]; intros d Hd; [exact Hd|].
  cbn [fold_left]. apply IH. unfold group_step.
  destruct (build_score_robust _ _ _ loss sen) as [s| |] eqn:Hb;
    [|exact Hd|exact Hd].
  apply build_score_robust_finite in Hb.
  intros cls scores. rewrite append_sample_lookup.
  destruct (decide (c = cls)) as [<-|Hne]; [|apply Hd].
  intros [= <-]. split.
  - intros Hnil. now apply app_eq_nil in Hnil as [_ ?].
  - apply Forall_app. split; [|now repeat constructor].
    destruct (d !! c) as [l|] eqn:E; cbn [default]; [|constructor].
    now apply (Hd c l).
Qed.

(** *** The outcome of one class, branch by branch *)

Lemma class_outcome_small fpr scores :
  (length scores < 10)%nat ->
  class_outcome fpr scores = (np_percentile scores f95, None).
Proof.
  intros H. unfold class_outcome.
  now apply Nat.ltb_lt in H as ->.
Qed.

Lemma class_outcome_few_clean fpr scores :
  (10 <= length scores)%nat ->
  (length (remove_outliers scores) < 5)%nat ->
  class_outcome fpr scores = (np_percentile scores f95, None).
Proof.
  intros H10 H5. unfold class_outcome.
  apply Nat.ltb_ge in H10 as ->. now apply Nat.ltb_lt in H5 as ->.
Qed.

Lemma class_outcome_fit fpr scores :
  (10 <= length scores)%nat ->
  (5 <= length (remove_outliers scores))%nat ->
  class_outcome fpr scores =
    match genextreme_fit (map neg (remove_outliers scores)) with
    | Raised => (percentile_fallback (remove_outliers scores) fpr, None)
    | Ok (shape, loc, scale) =>
        if unreasonable shape scale
        then (percentile_fallback (remove_outliers scores) fpr, None)
        else
          (match genextreme_ppf (sub f1 fpr) shape loc scale with
           | Raised => percentile_fallback (remove_outliers scores) fpr
           | Ok p =>
               if out_of_range (neg p) (remove_outliers scores) scores
               then percentile_fallback (remove_outliers scores) fpr
               else neg p
           end,
           Some (shape, loc, scale))
    end.
Proof.
  intros H10 H5. unfold class_outcome.
  apply Nat.ltb_ge in H10 as ->. apply Nat.ltb_ge in H5 as ->.
  destruct (genextreme_fit _) as [[[shape loc] scale]|]; [|reflexivity].
  destruct (unreasonable shape scale); [reflexivity|].
  now destruct (genextreme_ppf _ _ _ _).
Qed.

(** A model entry comes from a fit on the trimmed scores of a class that is
    large enough, and has passed the test on its parameters. *)
Lemma class_outcome_model fpr scores shape loc scale :
  (class_outcome fpr scores).2 = Some (shape, loc, scale) ->
  (10 <= length scores)%nat
  /\ (5 <= length (remove_outliers scores))%nat
  /\ genextreme_fit (map neg (remove_outliers scores)) = Ok (shape, loc, scale)
  /\ unreasonable shape scale = false.
Proof.
  unfold class_outcome.
  destruct (length scores <? 10)%nat eqn:H10; [discriminate|].
  destruct (length (remove_outliers scores) <? 5)%nat eqn:H5; [discriminate|].
  apply Nat.ltb_ge in H10, H5.
  destruct (genextreme_fit _) as [[[shape' loc'] scale']|]; [|discriminate].
  destruct (unreasonable shape' scale') eqn:Hu; [discriminate|].
  destruct (genextreme_ppf _ _ _ _); cbn [snd]; intros [= <- <- <-]; auto.
Qed.

(** The test on the parameters, read on parameters that are not NaN. *)
Lemma unreasonable_false_bounds (shape scale : float) :
  isnan shape = false -> isnan scale = false ->
  unreasonable shape scale = false ->
  leb (abs shape) f2 = true /\ gtb scale f0 = true /\ leb scale f10 = true.
Proof.
  intros Hshape Hscale. unfold unreasonable.
  rewrite !orb_false_iff. intros [[H1 H2] H3]. repeat split.
  - apply gtb_false_leb_true; [now rewrite isnan_abs | reflexivity | exact H1].
  - apply leb_false_gtb_true; [exact Hscale | reflexivity | exact H2].
  - apply gtb_false_leb_true; [exact Hscale | reflexivity | exact H3].
Qed.

Lemma bounds_violated_unreasonable (shape scale : float) :
  isnan shape = false -> isnan scale = false ->
  leb (abs shape) f2 = false \/ gtb scale f0 = false \/ leb scale f10 = false ->
  unreasonable shape scale = true.
Proof.
  intros Hshape Hscale Hv. unfold unreasonable. rewrite !orb_true_iff.
  destruct Hv as [H | [H | H]].
  - left; left.
    apply leb_false_gtb_true; [now rewrite isnan_abs | reflexivity | exact H].
  - left; right.
    apply gtb_false_leb_true; [exact Hscale | reflexivity | exact H].
  - right.
    apply leb_false_gtb_true; [exact Hscale | reflexivity | exact H].
Qed.

Section Run.

Variable classifier : @classifier_t model_inputs.
Variable tokenizer : @tokenizer_t sentence model_inputs.
Variables (losses : list float) (sentences : list sentence).
Variables (true_classes : list Z) (max_length : Z).
Variables (fpr contamination_ratio : float).

(** The returned dictionaries, class by class. *)
Lemma fit_evt_models_robust_lookup thresholds evt_models cls :
  fit_evt_models_robust classifier tokenizer losses sentences
    true_classes max_length fpr contamination_ratio
    = (thresholds, evt_models) ->
  match class_to_samples_robust classifier tokenizer losses sentences
          true_classes max_length !! cls with
  | Some scores =>
      thresholds !! cls = Some (class_outcome fpr scores).1
      /\ evt_models !! cls = (class_outcome fpr scores).2
  | None => thresholds !! cls = None /\ evt_models !! cls = None
  end.
Proof.
  unfold fit_evt_models_robust.
  set (class_to_samples := class_to_samples_robust _ _ _ _ _ _).
  intros Hrun.
  destruct (class_to_samples !! cls) as [scores|] eqn:Hcls.
  - apply elem_of_map_to_list in Hcls.
    destruct (robust_fold_lookup fpr (map_to_list class_to_samples)
                (NoDup_fst_map_to_list _) ∅ ∅ cls scores Hcls) as [H1 H2].
    rewrite Hrun in H1, H2. cbn [fst snd] in H1, H2.
    split; [exact H1|]. rewrite H2.
    now destruct (class_outcome fpr scores).2.
  - assert (Hnotin : cls ∉ (map_to_list class_to_samples).*1).
    { intros Hin. apply list_elem_of_fmap in Hin as ([c sc] & -> & Hin).
      apply elem_of_map_to_list in Hin. cbn [fst] in Hcls. congruence. }
    destruct (robust_fold_other fpr _ cls Hnotin ∅ ∅) as [H1 H2].
    rewrite Hrun in H1, H2. cbn [fst snd] in H1, H2.
    now rewrite H1, H2, !lookup_empty.
Qed.

(** Every class of [class_to_samples] has at least one score, and all
    its scores are finite. *)
Lemma class_to_samples_finite :
  finite_samples
    (class_to_samples_robust classifier tokenizer losses sentences
       true_classes max_length).
Proof.
  apply group_fold_finite. intros cls scores.
  now rewrite lookup_empty.
Qed.



(** C2: a class with fewer than 10 valid scores never gets a GEV model, and
    its threshold is the 95th percentile of its raw scores. *)
Theorem small_class_uses_raw_percentile thresholds evt_models cls scores :
  fit_evt_models_robust classifier tokenizer losses sentences
    true_classes max_length fpr contamination_ratio
    = (thresholds, evt_models) ->
  class_to_samples_robust classifier tokenizer losses sentences
    true_classes max_length !! cls = Some scores ->
  (length scores < 10)%nat ->
  evt_models !! cls = None
  /\ thresholds !! cls = Some (np_percentile scores f95).
Proof.
  intros Hrun Hcls Hlt.
  pose proof (fit_evt_models_robust_lookup thresholds evt_models cls Hrun)
    as Hl.
  rewrite Hcls, (class_outcome_small fpr scores Hlt) in Hl.
  destruct Hl as [Ht Hm]. now split.
Qed.

(** C3: for a class with at least 10 valid scores the fitter keeps, in
    order, exactly the scores [s] with [Q1 - 1.5 IQR <= s <= Q3 + 1.5 IQR],
    the quartiles being those of the scores of the class (with bounds that
    are not NaN the dropped scores are those below the lower or above the
    upper bound); a model that is recorded was fitted on the negated
    trimmed scores; and when fewer than 5 scores remain the threshold is
    the 95th percentile of the untrimmed scores and no model is recorded. *)
Theorem iqr_trimming thresholds evt_models cls scores :
  fit_evt_models_robust classifier tokenizer losses sentences
    true_classes max_length fpr contamination_ratio
    = (thresholds, evt_models) ->
  class_to_samples_robust classifier tokenizer losses sentences
    true_classes max_length !! cls = Some scores ->
  (10 <= length scores)%nat ->
  let q1 := np_percentile scores f25 in
  let q3 := np_percentile scores f75 in
  let iqr := sub q3 q1 in
  let lower_bound := sub q1 (mul f1_5 iqr) in
  let upper_bound := add q3 (mul f1_5 iqr) in
  let scores_clean := remove_outliers scores in
  scores_clean
    = List.filter (fun s => leb lower_bound s && leb s upper_bound) scores
  /\ (forall s, s ∈ scores ->
        (s ∈ scores_clean
         <-> leb lower_bound s = true /\ leb s upper_bound = true))
  /\ (isnan lower_bound = false -> isnan upper_bound = false ->
      forall s, s ∈ scores ->
        (s ∉ scores_clean
         <-> ltb s lower_bound = true \/ gtb s upper_bound = true))
  /\ (forall g, evt_models !! cls = Some g ->
        genextreme_fit (map neg scores_clean) = Ok g)
  /\ ((length scores_clean < 5)%nat ->
      thresholds !! cls = Some (np_percentile scores f95)
      /\ evt_models !! cls = None).
Proof.
  intros Hrun Hcls H10 q1 q3 iqr lower_bound upper_bound scores_clean.
  pose proof (fit_evt_models_robust_lookup thresholds evt_models cls Hrun)
    as Hl.
  rewrite Hcls in Hl. destruct Hl as [Ht Hm].
  assert (Hkept : forall s, s ∈ scores ->
            (s ∈ scores_clean
             <-> leb lower_bound s = true /\ leb s upper_bound = true)).
  { intros s Hs. subst scores_clean. unfold remove_outliers.
    rewrite list_elem_of_In, filter_In, <- list_elem_of_In.
    unfold within_bounds, iqr_bounds. cbn [fst snd].
    fold q1 q3 iqr lower_bound upper_bound. rewrite andb_true_iff. tauto. }
  split; [reflexivity|]. split; [exact Hkept|]. split; [|split].
  - intros Hlo Hup s Hs. rewrite (Hkept s Hs).
    destruct (class_to_samples_finite cls scores Hcls) as [_ Hfin].
    rewrite Forall_forall in Hfin.
    assert (Hnan : isnan s = false).
    { specialize (Hfin s Hs). now destruct s. }
    split.
    + intros Hnot.
      destruct (leb lower_bound s) eqn:E1.
      * destruct (leb s upper_bound) eqn:E2; [tauto|].
        right. now apply leb_false_gtb_true.
      * left. change (gtb lower_bound s = true).
        now apply leb_false_gtb_true.
    + intros [Hb | Ha] [H1 H2].
      * change (gtb lower_bound s = true) in Hb.
        apply gtb_true_leb_false in Hb. congruence.
      * apply gtb_true_leb_false in Ha. congruence.
  - intros [[shape loc] scale] Hg. rewrite Hg in Hm. symmetry in Hm.
    now apply class_outcome_model in Hm as (_ & _ & Hfit & _).
  - intros H5.
    rewrite (class_outcome_few_clean fpr scores H10 H5) in Ht, Hm.
    now split.
Qed.

(** C4, as the code has it: for a class with at least 10 valid scores of
    which at least 5 remain after trimming, the final threshold is the
    GEV-derived threshold when that one is neither below the minimum
    trimmed score nor above twice the maximum raw score, and the
    [100 * (1 - fpr)] percentile of the trimmed scores in every other
    case: a GEV-derived threshold violating the range is discarded in favour
    of the percentile.  With a percentile that lies between the minimum
    and the maximum of the trimmed scores, the final threshold is never
    below the minimum trimmed score, and it is never above twice the
    maximum raw score when that maximum is not negative; a threshold that
    is not NaN then lies within the range.  A class that is not trimmed
    (fewer than 10 valid scores, or fewer than 5 left) has the 95th
    percentile of its raw scores as threshold, with the same two bounds
    read on the raw scores. *)
Theorem final_threshold_range thresholds evt_models cls scores :
  fit_evt_models_robust classifier tokenizer losses sentences
    true_classes max_length fpr contamination_ratio
    = (thresholds, evt_models) ->
  class_to_samples_robust classifier tokenizer losses sentences
    true_classes max_length !! cls = Some scores ->
  let scores_clean := remove_outliers scores in
  let fallback := np_percentile scores_clean (mul f100 (sub f1 fpr)) in
  let twice_max := mul (np_max scores) f2 in
  exists t,
    thresholds !! cls = Some t
    /\ ((10 <= length scores)%nat -> (5 <= length scores_clean)%nat ->
        (forall shape loc scale p,
            genextreme_fit (map neg scores_clean) = Ok (shape, loc, scale) ->
            unreasonable shape scale = false ->
            genextreme_ppf (sub f1 fpr) shape loc scale = Ok p ->
            (ltb (neg p) (np_min scores_clean) = true
             \/ gtb (neg p) twice_max = true ->
             t = fallback)
            /\ (ltb (neg p) (np_min scores_clean) = false ->
                gtb (neg p) twice_max = false ->
                t = neg p))
        /\ (t = fallback
            \/ exists shape loc scale p,
                 genextreme_fit (map neg scores_clean) = Ok (shape, loc, scale)
                 /\ unreasonable shape scale = false
                 /\ genextreme_ppf (sub f1 fpr) shape loc scale = Ok p
                 /\ t = neg p
                 /\ ltb t (np_min scores_clean) = false
                 /\ gtb t twice_max = false)
        /\ (leb (np_min scores_clean) fallback = true ->
            leb fallback (np_max scores_clean) = true ->
            ltb t (np_min scores_clean) = false
            /\ (isnan t = false -> leb (np_min scores_clean) t = true)
            /\ (canonical64 (np_max scores) = true ->
                leb f0 (np_max scores) = true ->
                gtb t twice_max = false
                /\ (isnan t = false -> leb t twice_max = true))))
    /\ ((length scores < 10)%nat \/ (length scores_clean < 5)%nat ->
        t = np_percentile scores f95
        /\ (leb (np_min scores) t = true -> leb t (np_max scores) = true ->
            ltb t (np_min scores) = false
            /\ (canonical64 (np_max scores) = true ->
                leb f0 (np_max scores) = true ->
                gtb t twice_max = false /\ leb t twice_max = true))).
Proof.
  intros Hrun Hcls scores_clean fallback twice_max.
  pose proof (fit_evt_models_robust_lookup thresholds evt_models cls Hrun)
    as Hl.
  rewrite Hcls in Hl. destruct Hl as [Ht _].
  destruct (class_to_samples_finite cls scores Hcls) as [Hne Hfin].
  assert (Hnn : Forall (fun x => isnan x = false) scores).
  { eapply Forall_impl; [exact Hfin|]. intros x. apply isfinite_not_nan. }
  exists (class_outcome fpr scores).1. split; [exact Ht|].
  set (t := (class_outcome fpr scores).1). split.
  - intros H10 H5.
    assert (Hcne : scores_clean <> []).
    { intros E. rewrite E in H5. cbn in H5. lia. }
    assert (Hcnn : Forall (fun x => isnan x = false) scores_clean).
    { rewrite Forall_forall in *. intros x Hx. apply Hnn.
      apply list_elem_of_In, filter_In in Hx. now apply list_elem_of_In. }
    assert (Hcase :
      t = fallback
      \/ exists shape loc scale p,
           genextreme_fit (map neg scores_clean) = Ok (shape, loc, scale)
           /\ unreasonable shape scale = false
           /\ genextreme_ppf (sub f1 fpr) shape loc scale = Ok p
           /\ t = neg p
           /\ ltb t (np_min scores_clean) = false
           /\ gtb t twice_max = false).
    { subst t. rewrite (class_outcome_fit fpr scores H10 H5).
      fold scores_clean. unfold percentile_fallback. fold fallback.
      destruct (genextreme_fit (map neg scores_clean))
        as [[[shape loc] scale]|]; [|now left].
      destruct (unreasonable shape scale) eqn:Hu; [now left|].
      cbn [fst].
      destruct (genextreme_ppf (sub f1 fpr) shape loc scale) as [p|] eqn:Hppf;
        [|now left].
      destruct (out_of_range (neg p) scores_clean scores) eqn:Hout;
        [now left|].
      unfold out_of_range in Hout. apply orb_false_iff in Hout as [H1 H2].
      right. exists shape, loc, scale, p. auto 10. }
    split; [|split; [exact Hcase|]].
    + intros shape loc scale p Hfit Hu Hppf. subst t.
      rewrite (class_outcome_fit fpr scores H10 H5).
      fold scores_clean. rewrite Hfit, Hu. cbn [fst]. rewrite Hppf.
      unfold out_of_range, percentile_fallback. fold fallback twice_max.
      split.
      * intros [-> | ->]; [reflexivity | now rewrite orb_true_r].
      * now intros -> ->.
    + intros Hlo Hhi.
      assert (Hlow : ltb t (np_min scores_clean) = false).
      { destruct Hcase as [-> | (? & ? & ? & ? & _ & _ & _ & _ & H & _)];
          [now apply leb_true_ltb_false | exact H]. }
      split; [exact Hlow|]. split.
      * intros Hnt. apply ltb_false_leb_true; [|exact Hnt | exact Hlow].
        now apply np_min_not_nan.
      * intros Hcan Hpos.
        pose proof (double_not_below _ Hcan Hpos) as Hdbl.
        fold twice_max in Hdbl.
        destruct Hcase as [-> | (? & ? & ? & ? & _ & _ & _ & _ & _ & H)].
        -- assert (Hle : leb fallback twice_max = true).
           { eapply leb_trans; [exact Hhi|].
             eapply leb_trans; [|exact Hdbl].
             now apply np_max_filter. }
           split; [now apply leb_true_gtb_false | intros _; exact Hle].
        -- split; [exact H|]. intros Hnt.
           apply gtb_false_leb_true; [exact Hnt | | exact H].
           now apply leb_true_not_nan in Hdbl.
  - intros Hsmall.
    assert (Heq : t = np_percentile scores f95).
    { subst t. destruct (Nat.lt_ge_cases (length scores) 10) as [Hlt | H10].
      - now rewrite (class_outcome_small fpr scores Hlt).
      - destruct Hsmall as [Hlt | Hlt]; [lia|].
        now rewrite (class_outcome_few_clean fpr scores H10 Hlt). }
    split; [exact Heq|]. rewrite Heq. intros Hlo Hhi.
    split; [now apply leb_true_ltb_false|].
    intros Hcan Hpos.
    pose proof (double_not_below _ Hcan Hpos) as Hdbl.
    fold twice_max in Hdbl.
    assert (Hle : leb (np_percentile scores f95) twice_max = true)
      by (eapply leb_trans; eassumption).
    split; [now apply leb_true_gtb_false | exact Hle].
Qed.

End Run.

(** *** The score builders *)

Section Builders.

Variable classifier : @classifier_t model_inputs.
Variable tokenizer : @tokenizer_t sentence model_inputs.
Variable max_length : Z.

Lemma ensemble_score_nan (max_prob loss : float) :
  isnan loss = true \/ isnan max_prob = true ->
  ensemble_score max_prob loss = nan.
Proof.
  unfold ensemble_score. intros [H | H]; apply isnan_true in H; subst.
  - now rewrite mul_nan_r, add_nan_r.
  - now rewrite sub_nan_r, mul_nan_r.
Qed.

(** Neither builder has a path that raises. *)
Lemma builders_never_raise (loss : float) (sen : sentence) :
  build_score classifier tokenizer max_length loss sen <> InvalidScoreError
  /\ build_score_robust classifier tokenizer max_length loss sen
     <> InvalidScoreError.
Proof.
  unfold build_score, build_score_robust. split; [discriminate|].
  destruct (isnan loss || isinf loss); [discriminate|].
  destruct (isnan _ || isinf _); discriminate.
Qed.

(** C7, as the code has it: on an example whose normalized loss or whose
    classifier maximum probability is NaN no builder raises; the builder of
    the robust fitter skips the example and leaves [class_to_samples] as it
    is, and the builder of the standard fitter produces the score NaN and
    appends it to the scores of the class. *)
Theorem nan_example_skipped_or_scored (loss : float) (sen : sentence) :
  isnan loss = true
  \/ isnan (classifier_max_prob classifier tokenizer max_length sen) = true ->
  build_score_robust classifier tokenizer max_length loss sen = Ignored
  /\ (forall class_to_samples cls,
        group_step (build_score_robust classifier tokenizer max_length)
          class_to_samples (loss, sen, cls) = class_to_samples)
  /\ build_score classifier tokenizer max_length loss sen = Produced nan
  /\ (forall class_to_samples cls,
        group_step (build_score classifier tokenizer max_length)
          class_to_samples (loss, sen, cls)
        = append_sample cls nan class_to_samples).
Proof.
  intros Hnan.
  assert (Hrob : build_score_robust classifier tokenizer max_length loss sen
                 = Ignored).
  { unfold build_score_robust.
    destruct (isnan loss || isinf loss) eqn:E; [reflexivity|].
    now rewrite (ensemble_score_nan _ _ Hnan). }
  assert (Hstd : build_score classifier tokenizer max_length loss sen
                 = Produced nan).
  { unfold build_score. now rewrite (ensemble_score_nan _ _ Hnan). }
  repeat split; try assumption.
  - intros d cls. unfold group_step. now rewrite Hrob.
  - intros d cls. unfold group_step. now rewrite Hstd.
Qed.

End Builders.

(** ** The decision procedure *)

Section Predict.

Variable classifier : @classifier_t model_inputs.
Variable tokenizer : @tokenizer_t sentence model_inputs.
Variables (threshold : float) (ood_label max_length : Z).

Lemma predict_step_decision (labels : list Z) (loss : float) (sen : sentence) :
  predict_step classifier tokenizer threshold ood_label max_length labels
    (loss, sen)
  = labels
    ++ [decision classifier tokenizer threshold ood_label max_length loss sen].
Proof. unfold predict_step, decision. now destruct (leb loss threshold). Qed.

Lemma predict_fold (items : list (float * sentence)) :
  forall labels,
    fold_left
      (predict_step classifier tokenizer threshold ood_label max_length)
      items labels
    = labels
      ++ (uncurry (decision classifier tokenizer threshold ood_label max_length)
            <$> items).
Proof.
  induction items as [|[loss sen] items IH]; intros labels.
  - now rewrite app_nil_r.
  - cbn [fold_left fmap list_fmap]. rewrite predict_step_decision, IH.
    now rewrite <- app_assoc.
Qed.

(** The loop computes one label per pair, in the order of the pairs. *)
Lemma predict_zip_with (losses : list float) (sentences : list sentence) :
  predict classifier tokenizer losses sentences threshold ood_label max_length
  = zip_with (decision classifier tokenizer threshold ood_label max_length)
      losses sentences.
Proof.
  unfold predict. rewrite predict_fold. cbn [app].
  symmetry. apply zip_with_zip.
Qed.

Lemma predict_lookup (losses : list float) (sentences : list sentence)
    (i : nat) (loss : float) (sen : sentence) :
  losses !! i = Some loss -> sentences !! i = Some sen ->
  predict classifier tokenizer losses sentences threshold ood_label max_length
    !! i
  = Some (decision classifier tokenizer threshold ood_label max_length loss sen).
Proof.
  intros Hl Hs. rewrite predict_zip_with, lookup_zip_with, Hl. cbn.
  now rewrite Hs.
Qed.

(** C8: the label of a pair is the argmax class of the classifier on the
    sentence when [loss <= threshold] and [ood_label] when
    [loss > threshold]; so replacing one loss that is at or below the
    threshold by one above it turns the label of that example from the
    classifier label into [ood_label] and changes no other label. *)
Theorem predict_threshold_decision (losses : list float)
    (sentences : list sentence) (i : nat) (loss : float) (sen : sentence) :
  losses !! i = Some loss -> sentences !! i = Some sen ->
  (leb loss threshold = true ->
   predict classifier tokenizer losses sentences threshold ood_label
     max_length !! i
   = Some (Z.of_nat
             (np_argmax
                (classifier (__predict_preprocess__ sen tokenizer max_length)))))
  /\ (gtb loss threshold = true ->
      predict classifier tokenizer losses sentences threshold ood_label
        max_length !! i
      = Some ood_label)
  /\ (forall loss',
        leb loss threshold = true -> gtb loss' threshold = true ->
        predict classifier tokenizer (<[i := loss']> losses) sentences
          threshold ood_label max_length
        = <[i := ood_label]>
            (predict classifier tokenizer losses sentences threshold ood_label
               max_length)).
Proof.
  intros Hl Hs. rewrite (predict_lookup losses sentences i loss sen Hl Hs).
  unfold decision at 1 2. split; [|split].
  - intros ->. reflexivity.
  - intros Hgt. now rewrite (gtb_true_leb_false _ _ Hgt).
  - intros loss' _ Hgt. rewrite !predict_zip_with.
    replace ood_label
      with (decision classifier tokenizer threshold ood_label max_length
              loss' sen) at 2
      by (unfold decision; now rewrite (gtb_true_leb_false _ _ Hgt)).
    rewrite insert_zip_with. f_equal.
    symmetry. now apply list_insert_id.
Qed.

(** C10: the procedure returns [min (len losses) (len sentences)] labels,
    the i-th one decided from the i-th loss and the i-th sentence; the
    elements of the longer list beyond that length play no part. *)
Theorem predict_length_and_order (losses : list float)
    (sentences : list sentence) :
  let labels :=
    predict classifier tokenizer losses sentences threshold ood_label
      max_length in
  let n := Nat.min (length losses) (length sentences) in
  length labels = n
  /\ (forall i loss sen,
        losses !! i = Some loss -> sentences !! i = Some sen ->
        labels !! i
        = Some (decision classifier tokenizer threshold ood_label max_length
                  loss sen))
  /\ (forall i, (n <= i)%nat -> labels !! i = None)
  /\ labels
     = predict classifier tokenizer (take n losses) (take n sentences)
         threshold ood_label max_length.
Proof.
  intros labels n. subst labels.
  assert (Hlen : length (predict classifier tokenizer losses sentences
                           threshold ood_label max_length) = n).
  { rewrite predict_zip_with. apply length_zip_with. }
  split; [exact Hlen|]. split; [|split].
  - intros i loss sen. apply predict_lookup.
  - intros i Hi. apply lookup_ge_None. now rewrite Hlen.
  - rewrite !predict_zip_with. symmetry.
    apply zip_with_take_both'; subst n; lia.
Qed.

End Predict.

End FitterFacts.

(** ** Sample runs *)

Import Samples.

Example percentile_linear_quartile :
  percentile_linear (map of_Z [1; 2; 3; 4; 5; 6; 7; 8; 9; 10]) f25
  = of_scaled 13 (-2).
Proof. vm_compute. reflexivity. Qed.

Example percentile_linear_constant :
  percentile_linear (replicate 10 (neg (of_scaled 1 (-2)))) f95
  = neg (of_scaled 1 (-2)).
Proof. vm_compute. reflexivity. Qed.

Example ensemble_score_certain_classifier :
  ensemble_score f1 (neg f0_5) = neg (of_scaled 1 (-2)).
Proof. vm_compute. reflexivity. Qed.

Lemma compute_loss_safe_all_invalid_run :
  compute_loss_safe vae [(2, 0, 0); (-1, 0, 0); (4, 0, 0)] = [f10].
Proof.
  apply (compute_loss_safe_all_invalid Z vae).
  constructor; [|constructor; [|constructor; [|constructor]]].
  - right. exists nan. split; [reflexivity | now left].
  - now left.
  - right. exists nan. split; [reflexivity | now left].
Defined.

Lemma compute_loss_safe_skips_invalid_run :
  compute_loss_safe vae [(1, 0, 0); (2, 0, 0); (-1, 0, 0); (3, 0, 0)]
    = [of_Z 1; of_Z 3]
  /\ length (compute_loss_safe vae [(1, 0, 0); (2, 0, 0); (-1, 0, 0); (3, 0, 0)])
     = 2%nat
  /\ snd (loss_loop vae [(1, 0, 0); (2, 0, 0); (-1, 0, 0); (3, 0, 0)]) = 2%nat.
Proof.
  assert (Hex : Exists (fun b => is_valid vae b = true)
                  [(1, 0, 0); (2, 0, 0); (-1, 0, 0); (3, 0, 0)]).
  { apply Exists_cons_hd. reflexivity. }
  destruct (compute_loss_safe_skips_invalid Z vae _ Hex)
    as (_ & _ & _ & Hout & Hlen & Hskip & _).
  split; [exact Hout|]. split; [exact Hlen | exact Hskip].
Defined.



Lemma small_class_uses_raw_percentile_run :
  let run :=
    fit_evt_models_robust
      (libs := sample_libs (fit_const (f0, neg f0_5, f1)))
      classifier tokenizer (take 3 spread_losses) [0; 1; 2]%nat [0; 1; 0] 8
      f0_05 f0_05 in
  run.2 !! 0 = None
  /\ run.1 !! 0
     = Some (percentile_linear
               [mul f0_5 (div (of_Z 1) f10); mul f0_5 (div (of_Z 3) f10)] f95).
Proof.
  intros run.
  refine (small_class_uses_raw_percentile
            (libs := sample_libs (fit_const (f0, neg f0_5, f1)))
            classifier tokenizer (take 3 spread_losses) [0; 1; 2]%nat
            [0; 1; 0] 8 f0_05 f0_05 run.1 run.2 0
            [mul f0_5 (div (of_Z 1) f10); mul f0_5 (div (of_Z 3) f10)]
            (surjective_pairing _) _ _).
  - vm_compute. reflexivity.
  - vm_compute. lia.
Defined.

Lemma iqr_trimming_run :
  let scores :=
    map (fun k => mul f0_5 (div (of_Z k) f10)) [1; 2; 3; 4; 5; 6; 7; 8; 9; 10] in
  (forall s, s ∈ scores ->
     (s ∈ remove_outliers (libs := sample_libs (fit_const (f0, neg f0_5, f1)))
            scores
      <-> leb (iqr_bounds
                 (libs := sample_libs (fit_const (f0, neg f0_5, f1))) scores).1
            s = true
          /\ leb s
               (iqr_bounds
                  (libs := sample_libs (fit_const (f0, neg f0_5, f1))) scores).2
             = true))
  /\ (let run :=
        fit_evt_models_robust (libs := nan_percentile_libs)
          classifier tokenizer spread_losses ten_sentences ten_classes 8
          f0_05 f0_05 in
      run.1 !! 0 = Some nan /\ run.2 !! 0 = None).
Proof.
  intros scores. split.
  - refine (proj1 (proj2 (iqr_trimming
              (libs := sample_libs (fit_const (f0, neg f0_5, f1)))
              classifier tokenizer spread_losses ten_sentences ten_classes 8
              f0_05 f0_05 _ _ 0 scores (surjective_pairing _) _ _))).
    + vm_compute. reflexivity.
    + vm_compute. lia.
  - intros run.
    refine (proj2 (proj2 (proj2 (proj2 (iqr_trimming
              (libs := nan_percentile_libs)
              classifier tokenizer spread_losses ten_sentences ten_classes 8
              f0_05 f0_05 run.1 run.2 0 scores (surjective_pairing _) _ _))))
              _).
    + vm_compute. reflexivity.
    + vm_compute. lia.
    + vm_compute. lia.
Defined.

Lemma final_threshold_range_run :
  exists t,
    (fit_evt_models_robust
       (libs := sample_libs (fit_const (f0, neg f0_5, of_scaled 1 (-2))))
       classifier tokenizer spread_losses ten_sentences ten_classes 8
       f0_05 f0_05).1 !! 0 = Some t
    /\ t = of_scaled 1 (-2)
    /\ leb (mul f0_5 (div (of_Z 1) f10)) t = true
    /\ leb t (mul (mul f0_5 (div (of_Z 10) f10)) f2) = true.
Proof.
  destruct (final_threshold_range
              (libs := sample_libs (fit_const (f0, neg f0_5, of_scaled 1 (-2))))
              classifier tokenizer spread_losses ten_sentences ten_classes 8
              f0_05 f0_05 _ _ 0
              (map (fun k => mul f0_5 (div (of_Z k) f10))
                 [1; 2; 3; 4; 5; 6; 7; 8; 9; 10])
              (surjective_pairing _))
    as (t & Ht & Hgev & _).
  - vm_compute. reflexivity.
  - destruct Hgev as (Htie & _ & Hrange); [vm_compute; lia..|].
    assert (Heq : t = of_scaled 1 (-2)).
    { refine (proj2 (Htie f0 (neg f0_5) (of_scaled 1 (-2))
                       (neg (of_scaled 1 (-2))) _ _ _) _ _);
        vm_compute; reflexivity. }
    destruct Hrange as (_ & Hlow & Hup); [vm_compute; reflexivity..|].
    destruct Hup as [_ Hup]; [vm_compute; reflexivity..|].
    exists t. split; [exact Ht|]. split; [exact Heq|].
    subst t. split; [exact (Hlow eq_refl) | exact (Hup eq_refl)].
Defined.

(** Against C4 as stated, a class whose scores are all negative: with ten
    scores [-0.25] the GEV threshold is out of range, the percentile
    [-0.25] is stored, and it is above twice the maximum raw score,
    [-0.5]. *)
Lemma negative_scores_threshold_above_twice_max :
  exists thresholds evt_models scores t,
    fit_evt_models_robust
      (libs := sample_libs (fit_const (f0, of_scaled 1 (-2), f1)))
      classifier tokenizer negative_losses ten_sentences ten_classes 8
      f0_05 f0_05 = (thresholds, evt_models)
    /\ class_to_samples_robust
         (libs := sample_libs (fit_const (f0, of_scaled 1 (-2), f1)))
         classifier tokenizer negative_losses ten_sentences ten_classes 8
       !! 0 = Some scores
    /\ thresholds !! 0 = Some t
    /\ gtb t (mul (np_max scores) f2) = true.
Proof.
  eexists _, _, _, _. split; [apply surjective_pairing|].
  split; [vm_compute; reflexivity|].
  split; [vm_compute; reflexivity|].
  vm_compute. reflexivity.
Qed.

Lemma nan_example_skipped_or_scored_run :
  build_score_robust (libs := nan_softmax_libs) classifier tokenizer 8
    f0_5 0%nat = Ignored
  /\ build_score (libs := nan_softmax_libs) classifier tokenizer 8
       f0_5 0%nat = Produced nan.
Proof.
  destruct (nan_example_skipped_or_scored (libs := nan_softmax_libs)
              classifier tokenizer 8 f0_5 0%nat)
    as (Hrob & _ & Hstd & _).
  - right. vm_compute. reflexivity.
  - split; [exact Hrob | exact Hstd].
Defined.

(** Against C7 as stated, a NaN loss: no builder raises; the robust
    builder skips the example, the standard builder scores it NaN, and both
    grouping loops return. *)
Lemma nan_loss_builder_does_not_raise :
  build_score_robust (libs := sample_libs (fit_const (f0, f0, f1)))
    classifier tokenizer 8 nan 0%nat <> InvalidScoreError
  /\ build_score (libs := sample_libs (fit_const (f0, f0, f1)))
       classifier tokenizer 8 nan 0%nat <> InvalidScoreError
  /\ build_score_robust (libs := sample_libs (fit_const (f0, f0, f1)))
       classifier tokenizer 8 nan 0%nat = Ignored
  /\ build_score (libs := sample_libs (fit_const (f0, f0, f1)))
       classifier tokenizer 8 nan 0%nat = Produced nan
  /\ class_to_samples_robust (libs := sample_libs (fit_const (f0, f0, f1)))
       classifier tokenizer [nan] [0%nat] [0] 8 !! 0 = None
  /\ class_to_samples_standard (libs := sample_libs (fit_const (f0, f0, f1)))
       classifier tokenizer [nan] [0%nat] [0] 8 !! 0 = Some [nan].
Proof.
  split; [vm_compute; discriminate|]. split; [vm_compute; discriminate|].
  repeat split; vm_compute; reflexivity.
Qed.

Lemma predict_threshold_decision_run :
  predict classifier tokenizer (<[0%nat := div (of_Z 9) f10]>
                                  [div (of_Z 1) f10; div (of_Z 9) f10])
    [0; 1]%nat f0_5 2 8
  = <[0%nat := 2]>
      (predict classifier tokenizer [div (of_Z 1) f10; div (of_Z 9) f10]
         [0; 1]%nat f0_5 2 8).
Proof.
  refine (proj2 (proj2 (predict_threshold_decision classifier tokenizer
            f0_5 2 8 [div (of_Z 1) f10; div (of_Z 9) f10] [0; 1]%nat 0%nat
            (div (of_Z 1) f10) 0%nat eq_refl eq_refl))
            (div (of_Z 9) f10) _ _);
    vm_compute; reflexivity.
Defined.

Lemma predict_length_and_order_run :
  length (predict classifier tokenizer
            [div (of_Z 1) f10; div (of_Z 9) f10; div (of_Z 2) f10]
            [0; 1]%nat f0_5 2 8) = 2%nat.
Proof.
  exact (proj1 (predict_length_and_order classifier tokenizer f0_5 2 8
                  [div (of_Z 1) f10; div (of_Z 9) f10; div (of_Z 2) f10]
                  [0; 1]%nat)).
Defined.

(** * Further properties *)

(** ** The grouping loops *)

Section GroupingFacts.

Context {libs : Libraries}.
Context {sentence model_inputs : Type}.

Implicit Types (items : list (float * sentence * Z)) (cls : Z).

Lemma class_scores_cons (build : float -> sentence -> builder_outcome)
    cls (loss : float) (sen : sentence) (c : Z) items :
  class_scores build cls ((loss, sen, c) :: items) =
    match build loss sen with
    | Produced s => if decide (c = cls) then [s] else []
    | _ => []
    end ++ class_scores build cls items.
Proof.
  unfold class_scores. cbn [omap list_omap].
  destruct (decide (c = cls)); destruct (build loss sen); reflexivity.
Qed.

(** A grouping loop started on [d] extends the scores that [d] holds for a
    class by the scores produced for the examples of that class, in order,
    and leaves a class without produced score as it is. *)
Lemma group_fold_lookup (build : float -> sentence -> builder_outcome) items :
  forall (d : gmap Z (list float)) cls,
    fold_left (group_step build) items d !! cls =
      match d !! cls with
      | Some l => Some (l ++ class_scores build cls items)
      | None =>
          match class_scores build cls items with
          | [] => None
          | cs => Some cs
          end
      end.
Proof.
  induction items as [|[[loss sen] c] items IH]; intros d cls.
  - cbn. destruct (d !! cls); [now rewrite app_nil_r | reflexivity].
  - cbn [fold_left]. rewrite IH, class_scores_cons. unfold group_step.
    destruct (build loss sen) as [s| |]; cbn [app]; try reflexivity.
    rewrite append_sample_lookup.
    destruct (decide (c = cls)) as [->|Hne]; cbn [app].
    + destruct (d !! cls) as [l|]; cbn [default].
      * now rewrite <- app_assoc.
      * reflexivity.
    + reflexivity.
Qed.

Section Grouped.

Variable classifier : @classifier_t model_inputs.
Variable tokenizer : @tokenizer_t sentence model_inputs.
Variables (losses : list float) (sentences : list sentence).
Variables (true_classes : list Z) (max_length : Z).

(** X1: [fit_evt_models_robust] groups under a class exactly the ensemble
    scores of the examples labelled with it whose loss and score are
    neither NaN nor infinite, in input order; a class none of whose
    examples passes is not a key of [class_to_samples]. *)
Theorem class_to_samples_robust_lookup cls :
  let score (item : float * sentence * Z) :=
    ensemble_score
      (classifier_max_prob classifier tokenizer max_length item.1.2) item.1.1 in
  let kept (item : float * sentence * Z) :=
    (item.2 =? cls)
    && negb (isnan item.1.1 || isinf item.1.1)
    && negb (isnan (score item) || isinf (score item)) in
  class_to_samples_robust classifier tokenizer losses sentences true_classes
    max_length !! cls
  = match List.filter kept (zip3 losses sentences true_classes) with
    | [] => None
    | examples => Some (map score examples)
    end.
Proof.
  intros score kept. unfold class_to_samples_robust.
  rewrite group_fold_lookup, lookup_empty.
  assert (Hcs : class_scores
                  (build_score_robust classifier tokenizer max_length) cls
                  (zip3 losses sentences true_classes)
                = map score
                    (List.filter kept (zip3 losses sentences true_classes))).
  { induction (zip3 losses sentences true_classes) as [|[[loss sen] c] items IH];
      [reflexivity|].
    rewrite class_scores_cons, IH. cbn [List.filter].
    subst kept score. cbn [fst snd]. unfold build_score_robust.
    destruct (decide (c = cls)) as [->|Hne].
    - rewrite Z.eqb_refl. cbn [andb].
      destruct (isnan loss || isinf loss); [reflexivity|]. cbn [negb andb].
      now destruct (isnan _ || isinf _).
    - apply Z.eqb_neq in Hne. rewrite Hne. cbn [andb].
      destruct (isnan loss || isinf loss); [reflexivity|].
      now destruct (isnan _ || isinf _). }
  rewrite Hcs.
  now destruct (List.filter kept (zip3 losses sentences true_classes)).
Qed.

(** X2: [fit_evt_models] groups under a class the ensemble scores of all
    the examples labelled with it, in input order and whatever their
    value; a class is a key exactly when some example carries it. *)
Theorem class_to_samples_standard_lookup cls :
  let score (item : float * sentence * Z) :=
    ensemble_score
      (classifier_max_prob classifier tokenizer max_length item.1.2) item.1.1 in
  class_to_samples_standard classifier tokenizer losses sentences true_classes
    max_length !! cls
  = match List.filter (fun item => item.2 =? cls)
            (zip3 losses sentences true_classes) with
    | [] => None
    | examples => Some (map score examples)
    end.
Proof.
  intros score. unfold class_to_samples_standard.
  rewrite group_fold_lookup, lookup_empty.
  assert (Hcs : class_scores (build_score classifier tokenizer max_length) cls
                  (zip3 losses sentences true_classes)
                = map score
                    (List.filter (fun item => item.2 =? cls)
                       (zip3 losses sentences true_classes))).
  { induction (zip3 losses sentences true_classes) as [|[[loss sen] c] items IH];
      [reflexivity|].
    rewrite class_scores_cons, IH. cbn [List.filter].
    subst score. cbn [fst snd]. unfold build_score.
    destruct (decide (c = cls)) as [->|Hne].
    - now rewrite Z.eqb_refl.
    - apply Z.eqb_neq in Hne. now rewrite Hne. }
  rewrite Hcs.
  now destruct (List.filter _ (zip3 losses sentences true_classes)).
Qed.

End Grouped.

End GroupingFacts.

(** ** More on the robust fitter *)

Section RobustFacts.

Context {libs : Libraries}.
Context {sentence model_inputs : Type}.

Lemma isfinite_not_nan_inf (x : float) :
  isfinite x = true -> isnan x || isinf x = false.
Proof. now destruct x. Qed.

Lemma zip3_take {A B C : Type} (xs : list A) (ys : list B) (zs : list C) :
  let n := Nat.min (length xs) (Nat.min (length ys) (length zs)) in
  zip3 (take n xs) (take n ys) (take n zs) = zip3 xs ys zs.
Proof.
  revert ys zs. induction xs as [|x xs IH]; intros [|y ys] [|z zs];
    try reflexivity.
  cbn. f_equal. apply IH.
Qed.

Section Run.

Variable classifier : @classifier_t model_inputs.
Variable tokenizer : @tokenizer_t sentence model_inputs.
Variables (losses : list float) (sentences : list sentence).
Variables (true_classes : list Z) (max_length : Z).
Variables (fpr contamination_ratio : float).

(** X3: when every zipped example has a finite loss and a finite ensemble
    score, the guards of the robust fitter skip nothing and both fitters
    build the same [class_to_samples]. *)
Theorem groupings_agree_on_finite_scores :
  Forall (fun item : float * sentence * Z =>
            isfinite item.1.1 = true
            /\ isfinite
                 (ensemble_score
                    (classifier_max_prob classifier tokenizer max_length
                       item.1.2)
                    item.1.1) = true)
    (zip3 losses sentences true_classes) ->
  class_to_samples_robust classifier tokenizer losses sentences true_classes
    max_length
  = class_to_samples_standard classifier tokenizer losses sentences
      true_classes max_length.
Proof.
  unfold class_to_samples_robust, class_to_samples_standard.
  generalize (∅ : gmap Z (list float)).
  induction (zip3 losses sentences true_classes) as [|[[loss sen] c] items IH];
    intros d Hfin; [reflexivity|].
  apply Forall_cons in Hfin as [[Hloss Hscore] Hfin]. cbn [fst snd] in *.
  cbn [fold_left]. rewrite <- (IH _ Hfin). f_equal.
  unfold group_step, build_score_robust, build_score.
  rewrite (isfinite_not_nan_inf _ Hloss).
  now rewrite (isfinite_not_nan_inf _ Hscore).
Qed.

(** X4: the scores that the robust fitter groups under a class are never
    an empty list and never hold a NaN or an infinity. *)
Theorem class_to_samples_robust_finite cls (scores : list float) :
  class_to_samples_robust classifier tokenizer losses sentences true_classes
    max_length !! cls = Some scores ->
  scores <> [] /\ Forall (fun s => isfinite s = true) scores.
Proof.
  apply (class_to_samples_finite classifier tokenizer losses sentences
           true_classes max_length).
Qed.

(** X5: the fitters stop at the shortest of [losses], [sentences] and
    [true_classes]: the elements beyond that length play no part. *)
Theorem fitters_ignore_excess_inputs :
  let n :=
    Nat.min (length losses)
      (Nat.min (length sentences) (length true_classes)) in
  fit_evt_models_robust classifier tokenizer (take n losses)
    (take n sentences) (take n true_classes) max_length fpr
    contamination_ratio
  = fit_evt_models_robust classifier tokenizer losses sentences true_classes
      max_length fpr contamination_ratio
  /\ fit_evt_models classifier tokenizer (take n losses) (take n sentences)
       (take n true_classes) max_length fpr
     = fit_evt_models classifier tokenizer losses sentences true_classes
         max_length fpr.
Proof.
  intros n. unfold fit_evt_models_robust, fit_evt_models,
    class_to_samples_robust, class_to_samples_standard.
  subst n. now rewrite zip3_take.
Qed.

(** X6: a class has a threshold exactly when it is a key of
    [class_to_samples], that is when one of its examples was kept; and
    every class with a recorded model has a threshold, not the converse. *)
Theorem thresholds_cover_grouped_classes thresholds evt_models :
  fit_evt_models_robust classifier tokenizer losses sentences
    true_classes max_length fpr contamination_ratio
    = (thresholds, evt_models) ->
  dom thresholds
    = dom (class_to_samples_robust classifier tokenizer losses sentences
             true_classes max_length)
  /\ dom evt_models ⊆ dom thresholds.
Proof.
  intros Hrun.
  assert (Hl := fun cls =>
            fit_evt_models_robust_lookup classifier tokenizer losses
              sentences true_classes max_length fpr contamination_ratio
              thresholds evt_models cls Hrun).
  split.
  - apply set_eq. intros cls. rewrite !elem_of_dom. specialize (Hl cls).
    destruct (class_to_samples_robust _ _ _ _ _ _ !! cls) as [scores|].
    + destruct Hl as [-> _]. split; eauto.
    + destruct Hl as [-> _]. split; intros [? ?]; discriminate.
  - intros cls. rewrite !elem_of_dom. specialize (Hl cls).
    destruct (class_to_samples_robust _ _ _ _ _ _ !! cls) as [scores|].
    + destruct Hl as [-> _]. eauto.
    + destruct Hl as [_ ->]. intros [? ?]; discriminate.
Qed.

(** X7: when the fit raises on the trimmed scores of a class, the handler
    stores the [100 * (1 - fpr)] percentile of the trimmed scores and the
    class gets no model. *)
Theorem fit_failure_falls_back thresholds evt_models cls (scores : list float) :
  fit_evt_models_robust classifier tokenizer losses sentences
    true_classes max_length fpr contamination_ratio
    = (thresholds, evt_models) ->
  class_to_samples_robust classifier tokenizer losses sentences true_classes
    max_length !! cls = Some scores ->
  (10 <= length scores)%nat ->
  (5 <= length (remove_outliers scores))%nat ->
  genextreme_fit (map neg (remove_outliers scores)) = Raised ->
  thresholds !! cls
    = Some (np_percentile (remove_outliers scores) (mul f100 (sub f1 fpr)))
  /\ evt_models !! cls = None.
Proof.
  intros Hrun Hcls H10 H5 Hfit.
  pose proof (fit_evt_models_robust_lookup classifier tokenizer losses
                sentences true_classes max_length fpr contamination_ratio
                thresholds evt_models cls Hrun) as Hl.
  rewrite Hcls, (class_outcome_fit fpr scores H10 H5), Hfit in Hl.
  exact Hl.
Qed.

(** X8: the model of a class is stored before its threshold is derived:
    when the quantile raises, or the derived threshold is below the
    minimum trimmed score or above twice the maximum raw score, the model
    stays recorded although the threshold of the class is the percentile
    of the trimmed scores. *)
Theorem model_kept_when_threshold_discarded thresholds evt_models cls
    (scores : list float) (shape loc scale : float) :
  fit_evt_models_robust classifier tokenizer losses sentences
    true_classes max_length fpr contamination_ratio
    = (thresholds, evt_models) ->
  class_to_samples_robust classifier tokenizer losses sentences true_classes
    max_length !! cls = Some scores ->
  (10 <= length scores)%nat ->
  (5 <= length (remove_outliers scores))%nat ->
  genextreme_fit (map neg (remove_outliers scores)) = Ok (shape, loc, scale) ->
  unreasonable shape scale = false ->
  genextreme_ppf (sub f1 fpr) shape loc scale = Raised
  \/ (exists p,
        genextreme_ppf (sub f1 fpr) shape loc scale = Ok p
        /\ (ltb (neg p) (np_min (remove_outliers scores)) = true
            \/ gtb (neg p) (mul (np_max scores) f2) = true)) ->
  evt_models !! cls = Some (shape, loc, scale)
  /\ thresholds !! cls
     = Some (np_percentile (remove_outliers scores) (mul f100 (sub f1 fpr))).
Proof.
  intros Hrun Hcls H10 H5 Hfit Hu Hq.
  pose proof (fit_evt_models_robust_lookup classifier tokenizer losses
                sentences true_classes max_length fpr contamination_ratio
                thresholds evt_models cls Hrun) as Hl.
  rewrite Hcls, (class_outcome_fit fpr scores H10 H5), Hfit, Hu in Hl.
  cbn [fst snd] in Hl. destruct Hl as [Ht Hm]. split; [exact Hm|].
  rewrite Ht. destruct Hq as [-> | (p & -> & Hout)]; [reflexivity|].
  unfold out_of_range.
  destruct Hout as [-> | ->]; [reflexivity | now rewrite orb_true_r].
Qed.

End Run.

(** X9: the threshold and the model of a class depend on the scores of
    that class and on [fpr] only: two calls that group the same scores
    under a class give it the same threshold and the same model entry,
    whatever the other classes hold. *)
Theorem class_result_depends_on_own_scores
    (classifier classifier' : @classifier_t model_inputs)
    (tokenizer tokenizer' : @tokenizer_t sentence model_inputs)
    (losses losses' : list float) (sentences sentences' : list sentence)
    (true_classes true_classes' : list Z) (max_length max_length' : Z)
    (fpr contamination_ratio contamination_ratio' : float) (cls : Z) :
  class_to_samples_robust classifier tokenizer losses sentences true_classes
    max_length !! cls
  = class_to_samples_robust classifier' tokenizer' losses' sentences'
      true_classes' max_length' !! cls ->
  (fit_evt_models_robust classifier tokenizer losses sentences true_classes
     max_length fpr contamination_ratio).1 !! cls
  = (fit_evt_models_robust classifier' tokenizer' losses' sentences'
       true_classes' max_length' fpr contamination_ratio').1 !! cls
  /\ (fit_evt_models_robust classifier tokenizer losses sentences
        true_classes max_length fpr contamination_ratio).2 !! cls
     = (fit_evt_models_robust classifier' tokenizer' losses' sentences'
          true_classes' max_length' fpr contamination_ratio').2 !! cls.
Proof.
  intros Heq.
  pose proof (fit_evt_models_robust_lookup classifier tokenizer losses
                sentences true_classes max_length fpr contamination_ratio
                _ _ cls (surjective_pairing _)) as H1.
  pose proof (fit_evt_models_robust_lookup classifier' tokenizer' losses'
                sentences' true_classes' max_length' fpr contamination_ratio'
                _ _ cls (surjective_pairing _)) as H2.
  rewrite Heq in H1.
  destruct (class_to_samples_robust classifier' _ _ _ _ _ !! cls);
    destruct H1 as [-> ->], H2 as [-> ->]; now split.
Qed.

End RobustFacts.

(** ** The standard fitter *)

Section StandardFacts.

Context {libs : Libraries}.
Context {sentence model_inputs : Type}.

Implicit Types (items : list (Z * list float)) (scores : list float).
Implicit Types (st : gmap Z float * gmap Z gev_model) (cls : Z) (fpr : float).

(** A class on which the loop of [fit_evt_models] raises. *)
Lemma standard_loop_raised fpr items :
  forall st,
    standard_loop fpr items st = Raised
    <-> exists cls scores,
          (cls, scores) ∈ items
          /\ (genextreme_fit (map neg scores) = Raised
              \/ exists shape loc scale,
                   genextreme_fit (map neg scores) = Ok (shape, loc, scale)
                   /\ genextreme_ppf (sub f1 fpr) shape loc scale = Raised).
Proof.
  induction items as [|[c sc] items IH]; intros [th ms].
  - cbn. split; [discriminate|].
    intros (cls & scores & Hin & _). now apply elem_of_nil in Hin.
  - cbn [standard_loop].
    destruct (genextreme_fit (map neg sc)) as [[[shape loc] scale]|] eqn:Hfit.
    + destruct (genextreme_ppf (sub f1 fpr) shape loc scale) as [p|] eqn:Hppf.
      * rewrite IH. split.
        -- intros (cls & scores & Hin & H).
           exists cls, scores. split; [now apply elem_of_cons; right | exact H].
        -- intros (cls & scores & Hin & H).
           apply elem_of_cons in Hin as [[= -> ->] | Hin].
           ++ destruct H as [H | (s' & l' & c' & H & Hq)]; [congruence|].
              rewrite Hfit in H. injection H as <- <- <-. congruence.
           ++ exists cls, scores. now split.
      * split; [intros _ | reflexivity].
        exists c, sc. split; [apply elem_of_cons; now left|].
        right. now exists shape, loc, scale.
    + split; [intros _ | reflexivity].
      exists c, sc. split; [apply elem_of_cons; now left | now left].
Qed.

(** What a loop that returns has stored. *)
Lemma standard_loop_ok fpr items :
  NoDup items.*1 ->
  forall st st',
    standard_loop fpr items st = Ok st' ->
    (forall cls scores,
        (cls, scores) ∈ items ->
        exists shape loc scale p,
          genextreme_fit (map neg scores) = Ok (shape, loc, scale)
          /\ genextreme_ppf (sub f1 fpr) shape loc scale = Ok p
          /\ st'.1 !! cls = Some (neg p)
          /\ st'.2 !! cls = Some (shape, loc, scale))
    /\ (forall cls,
          cls ∉ items.*1 ->
          st'.1 !! cls = st.1 !! cls /\ st'.2 !! cls = st.2 !! cls).
Proof.
  induction items as [|[c sc] items IH]; intros Hnd [th ms] st' Hrun.
  - cbn in Hrun. injection Hrun as <-. split; [|now split].
    intros cls scores Hin. now apply elem_of_nil in Hin.
  - cbn [fmap list_fmap fst] in Hnd. apply NoDup_cons in Hnd as [Hc Hnd].
    cbn [standard_loop] in Hrun.
    destruct (genextreme_fit (map neg sc)) as [[[shape loc] scale]|] eqn:Hfit;
      [|discriminate].
    destruct (genextreme_ppf (sub f1 fpr) shape loc scale) as [p|] eqn:Hppf;
      [|discriminate].
    destruct (IH Hnd _ _ Hrun) as [Hin Hout]. cbn [fst snd] in Hout.
    split.
    + intros cls scores Hmem. apply elem_of_cons in Hmem as [[= -> ->] | Hmem].
      * exists shape, loc, scale, p. destruct (Hout c Hc) as [-> ->].
        now rewrite !lookup_insert_eq.
      * now apply Hin.
    + intros cls Hnotin. cbn [fmap list_fmap fst] in Hnotin.
      apply not_elem_of_cons in Hnotin as [Hne Hnotin].
      destruct (Hout cls Hnotin) as [-> ->]. cbn [fst snd].
      now rewrite !lookup_insert_ne by congruence.
Qed.

Section Run.

Variable classifier : @classifier_t model_inputs.
Variable tokenizer : @tokenizer_t sentence model_inputs.
Variables (losses : list float) (sentences : list sentence).
Variables (true_classes : list Z) (max_length : Z) (fpr : float).

(** X10: when [fit_evt_models] returns, every class that occurs among the
    zipped examples has both a model, the fit of its negated scores, and a
    threshold, the negated [1 - fpr] quantile of that model; no other class
    has either. *)
Theorem fit_evt_models_returns thresholds evt_models :
  fit_evt_models classifier tokenizer losses sentences true_classes
    max_length fpr = Ok (thresholds, evt_models) ->
  (forall cls scores,
      class_to_samples_standard classifier tokenizer losses sentences
        true_classes max_length !! cls = Some scores ->
      exists shape loc scale p,
        genextreme_fit (map neg scores) = Ok (shape, loc, scale)
        /\ genextreme_ppf (sub f1 fpr) shape loc scale = Ok p
        /\ thresholds !! cls = Some (neg p)
        /\ evt_models !! cls = Some (shape, loc, scale))
  /\ (forall cls,
        class_to_samples_standard classifier tokenizer losses sentences
          true_classes max_length !! cls = None ->
        thresholds !! cls = None /\ evt_models !! cls = None).
Proof.
  unfold fit_evt_models. intros Hrun.
  destruct (standard_loop_ok fpr _ (NoDup_fst_map_to_list _) _ _ Hrun)
    as [Hin Hout]. cbn [fst snd] in Hin, Hout.
  split.
  - intros cls scores Hcls. apply Hin. now apply elem_of_map_to_list.
  - intros cls Hcls.
    destruct (Hout cls) as [-> ->]; [|now rewrite !lookup_empty].
    intros Hmem. apply list_elem_of_fmap in Hmem as ([c sc] & -> & Hmem).
    apply elem_of_map_to_list in Hmem. cbn [fst] in Hcls. congruence.
Qed.

(** X11: [fit_evt_models] raises exactly when, for some class among the
    zipped examples, the fit of its negated scores raises or the quantile
    of the fitted model raises; no threshold is returned for any class
    then. *)
Theorem fit_evt_models_raises :
  fit_evt_models classifier tokenizer losses sentences true_classes
    max_length fpr = Raised
  <-> exists cls scores,
        class_to_samples_standard classifier tokenizer losses sentences
          true_classes max_length !! cls = Some scores
        /\ (genextreme_fit (map neg scores) = Raised
            \/ exists shape loc scale,
                 genextreme_fit (map neg scores) = Ok (shape, loc, scale)
                 /\ genextreme_ppf (sub f1 fpr) shape loc scale = Raised).
Proof.
  unfold fit_evt_models. rewrite standard_loop_raised.
  split; intros (cls & scores & Hin & H); exists cls, scores;
    (split; [now apply elem_of_map_to_list | exact H]).
Qed.

End Run.

End StandardFacts.

(** ** More on the loss collector *)

Section CollectorFacts.

Variable tensor : Type.
Variable model : batch tensor -> result losses_attr.

(** X12: the collector returns [max 1 v] losses for [v] valid examples; so
    on a non-empty input its output is as long as the input when nothing
    is skipped, and it is strictly shorter than an input of two or more
    examples as soon as one of them is skipped. *)
Theorem compute_loss_safe_length (data : list (batch tensor)) :
  length (compute_loss_safe model data)
    = Nat.max 1 (valid_count model data)
  /\ (invalid_count model data = 0%nat -> data <> [] ->
      length (compute_loss_safe model data) = length data)
  /\ ((0 < invalid_count model data)%nat -> (2 <= length data)%nat ->
      (length (compute_loss_safe model data) < length data)%nat).
Proof.
  pose proof (valid_invalid_total tensor model data) as Htot.
  assert (Hlen : length (compute_loss_safe model data)
                 = Nat.max 1 (valid_count model data)).
  { rewrite compute_loss_safe_spec, <- length_omap_valid.
    destruct (omap (valid_loss model) data); cbn [length]; lia. }
  split; [exact Hlen|]. rewrite Hlen. split.
  - intros H0 Hne. destruct data; [congruence|]. cbn [length] in *. lia.
  - lia.
Qed.

(** X13: collecting over a concatenation concatenates the collected
    losses when both parts hold a valid example; a part without any valid
    example contributes nothing, its sentinel does not appear. *)
Theorem compute_loss_safe_app (data1 data2 : list (batch tensor)) :
  (Exists (fun b => is_valid model b = true) data1 ->
   Exists (fun b => is_valid model b = true) data2 ->
   compute_loss_safe model (data1 ++ data2)
   = compute_loss_safe model data1 ++ compute_loss_safe model data2)
  /\ (Forall (invalid_example model) data1 ->
      compute_loss_safe model (data1 ++ data2) = compute_loss_safe model data2)
  /\ (Forall (invalid_example model) data2 ->
      compute_loss_safe model (data1 ++ data2) = compute_loss_safe model data1).
Proof.
  assert (Hne : forall data,
             Exists (fun b => is_valid model b = true) data ->
             compute_loss_safe model data = omap (valid_loss model) data).
  { intros data Hex. rewrite compute_loss_safe_spec.
    destruct (omap (valid_loss model) data) eqn:E; [|reflexivity].
    apply omap_valid_nil in E. exfalso.
    apply Exists_exists in Hex as (b & Hin & Hb).
    rewrite Forall_forall in E. apply E, invalid_example_iff in Hin.
    unfold is_valid in Hb. now rewrite Hin in Hb. }
  split; [|split].
  - intros H1 H2. rewrite (Hne _ H1), (Hne _ H2), <- omap_app.
    apply Hne. apply Exists_app. now left.
  - intros H1. rewrite !compute_loss_safe_spec, omap_app.
    apply omap_valid_nil in H1. now rewrite H1.
  - intros H2. rewrite !compute_loss_safe_spec, omap_app.
    apply omap_valid_nil in H2. now rewrite H2, app_nil_r.
Qed.

End CollectorFacts.

(** ** The evaluation block of [run] *)

Section EvaluationFacts.

Context {sentence model_inputs : Type}.

Variable classifier : @classifier_t model_inputs.
Variable tokenizer : @tokenizer_t sentence model_inputs.
Variables (threshold : float) (ood_label max_length : Z).

Lemma y_pred_binary_lookup (eval_losses : list float) (i : nat) :
  y_pred_binary eval_losses threshold !! i
  = (fun loss => if leb loss threshold then 0 else 1) <$> eval_losses !! i.
Proof. unfold y_pred_binary. apply (list_lookup_fmap _ eval_losses i). Qed.

Lemma leb_nan_false (x y : float) :
  isnan x = true \/ isnan y = true -> leb x y = false.
Proof.
  intros H. unfold leb, SFleb.
  now apply SFcompare_nan_iff in H as ->.
Qed.

(** X14: the binary and the multiclass predictions read the same test: at
    an index that has a loss and a sentence, the binary label is 1 exactly
    when [predict] emits [ood_label] for the same reason, and 0 exactly
    when it emits the label of the classifier; if the classifier never
    answers [ood_label], the multiclass label is [ood_label] if and only
    if the binary label is 1. *)
Theorem predicted_views_agree (eval_losses : list float)
    (eval_sentences : list sentence) (i : nat) (loss : float) (sen : sentence) :
  eval_losses !! i = Some loss -> eval_sentences !! i = Some sen ->
  let multiclass :=
    predict classifier tokenizer eval_losses eval_sentences threshold
      ood_label max_length in
  let binary := y_pred_binary eval_losses threshold in
  (binary !! i = Some 1 -> multiclass !! i = Some ood_label)
  /\ (binary !! i = Some 0 ->
      multiclass !! i
      = Some (classifier_label classifier tokenizer max_length sen))
  /\ (binary !! i = Some 0 \/ binary !! i = Some 1)
  /\ (classifier_label classifier tokenizer max_length sen <> ood_label ->
      (multiclass !! i = Some ood_label <-> binary !! i = Some 1)).
Proof.
  intros Hl Hs multiclass binary. subst multiclass binary.
  rewrite (predict_lookup classifier tokenizer threshold ood_label max_length
             eval_losses eval_sentences i loss sen Hl Hs).
  rewrite y_pred_binary_lookup, Hl. cbn. unfold decision.
  destruct (leb loss threshold).
  - split; [discriminate|]. split; [reflexivity|]. split; [now left|].
    intros Hne. split; [intros [= Heq]; congruence | discriminate].
  - split; [reflexivity|]. split; [discriminate|]. split; [now right|].
    intros _. split; reflexivity.
Qed.

(** X15: a loss or a threshold that is NaN compares false, so the example
    is labelled out of domain in both views. *)
Theorem nan_is_out_of_domain (eval_losses : list float)
    (eval_sentences : list sentence) (i : nat) (loss : float) (sen : sentence) :
  eval_losses !! i = Some loss -> eval_sentences !! i = Some sen ->
  isnan loss = true \/ isnan threshold = true ->
  predict classifier tokenizer eval_losses eval_sentences threshold ood_label
    max_length !! i = Some ood_label
  /\ y_pred_binary eval_losses threshold !! i = Some 1.
Proof.
  intros Hl Hs Hnan.
  rewrite (predict_lookup classifier tokenizer threshold ood_label max_length
             eval_losses eval_sentences i loss sen Hl Hs).
  rewrite y_pred_binary_lookup, Hl. cbn. unfold decision.
  now rewrite (leb_nan_false _ _ Hnan).
Qed.

(** X16: when there are as many test losses as test sentences, the
    multiclass predictions are those of the test split followed by those
    of the OOD split.  In any case the j-th OOD loss decides the label at
    index [len(test_loss) + j]: with fewer test losses than test sentences
    it is paired with a test sentence. *)
Theorem y_pred_multiclass_split
    (normalized_test_loss normalized_ood_loss : list float)
    (test_sentences ood_sentences : list sentence) :
  (length normalized_test_loss = length test_sentences ->
   y_pred_multiclass classifier tokenizer normalized_test_loss
     normalized_ood_loss test_sentences ood_sentences threshold ood_label
     max_length
   = predict classifier tokenizer normalized_test_loss test_sentences
       threshold ood_label max_length
     ++ predict classifier tokenizer normalized_ood_loss ood_sentences
          threshold ood_label max_length)
  /\ (forall j loss sen,
        normalized_ood_loss !! j = Some loss ->
        test_sentences !! (length normalized_test_loss + j)%nat = Some sen ->
        y_pred_multiclass classifier tokenizer normalized_test_loss
          normalized_ood_loss test_sentences ood_sentences threshold
          ood_label max_length !! (length normalized_test_loss + j)%nat
        = Some (decision classifier tokenizer threshold ood_label max_length
                  loss sen)).
Proof.
  unfold y_pred_multiclass. split.
  - intros Hlen. rewrite !predict_zip_with. now apply zip_with_app.
  - intros j loss sen Hl Hs. apply predict_lookup.
    + now rewrite lookup_app_r, Nat.add_comm, Nat.add_sub by lia.
    + now apply lookup_app_l_Some.
Qed.

(** X17: the lengths of the four label lists: one binary prediction per
    loss, one true binary label per sentence, and
    [min (number of losses) (number of sentences)] multiclass predictions;
    so the multiclass predictions are as many as the true labels exactly
    when there are at least as many losses as sentences. *)
Theorem evaluation_lengths
    (normalized_test_loss normalized_ood_loss : list float)
    (test_sentences ood_sentences : list sentence) :
  let n_losses :=
    (length normalized_test_loss + length normalized_ood_loss)%nat in
  let n_sentences := (length test_sentences + length ood_sentences)%nat in
  length (y_pred_binary (normalized_test_loss ++ normalized_ood_loss)
            threshold) = n_losses
  /\ length (y_true_binary test_sentences ood_sentences) = n_sentences
  /\ length (y_pred_multiclass classifier tokenizer normalized_test_loss
               normalized_ood_loss test_sentences ood_sentences threshold
               ood_label max_length)
     = Nat.min n_losses n_sentences
  /\ (length (y_pred_multiclass classifier tokenizer normalized_test_loss
                normalized_ood_loss test_sentences ood_sentences threshold
                ood_label max_length)
      = length (y_true_binary test_sentences ood_sentences)
      <-> (n_sentences <= n_losses)%nat).
Proof.
  intros n_losses n_sentences.
  assert (H1 : length (y_pred_binary
                         (normalized_test_loss ++ normalized_ood_loss)
                         threshold) = n_losses).
  { unfold y_pred_binary. now rewrite length_map, length_app. }
  assert (H2 : length (y_true_binary test_sentences ood_sentences)
               = n_sentences).
  { unfold y_true_binary. now rewrite length_app, !length_replicate. }
  assert (H3 : length (y_pred_multiclass classifier tokenizer
                         normalized_test_loss normalized_ood_loss
                         test_sentences ood_sentences threshold ood_label
                         max_length) = Nat.min n_losses n_sentences).
  { unfold y_pred_multiclass.
    now rewrite predict_zip_with, length_zip_with, !length_app. }
  rewrite H2, H3. repeat split; auto; lia.
Qed.

(** X18: the true multiclass labels cannot be built when a test intent is
    not a key of [in_lbl_2_indx]; otherwise they are the indices of the
    test intents followed by one [len(in_lbl_2_indx)] per OOD sentence,
    and, when no intent is numbered [len(in_lbl_2_indx)] and there is one
    test intent per test sentence, a true multiclass label is the OOD
    label exactly where the true binary label is 1. *)
Theorem y_true_multiclass_spec `{Countable intent}
    (in_lbl_2_indx : gmap intent Z) (test_intents : list intent)
    (test_sentences ood_sentences : list sentence) :
  (y_true_multiclass in_lbl_2_indx test_intents ood_sentences = Raised
   <-> exists i, i ∈ test_intents /\ in_lbl_2_indx !! i = None)
  /\ (forall labels,
        y_true_multiclass in_lbl_2_indx test_intents ood_sentences
          = Ok labels ->
        length labels = (length test_intents + length ood_sentences)%nat
        /\ (forall k i, test_intents !! k = Some i ->
              labels !! k = in_lbl_2_indx !! i)
        /\ (forall k, (length test_intents <= k)%nat ->
              (k < length test_intents + length ood_sentences)%nat ->
              labels !! k = Some (Z.of_nat (size in_lbl_2_indx)))
        /\ (length test_intents = length test_sentences ->
            (forall i v, in_lbl_2_indx !! i = Some v ->
               v <> Z.of_nat (size in_lbl_2_indx)) ->
            forall k,
              labels !! k = Some (Z.of_nat (size in_lbl_2_indx))
              <-> y_true_binary test_sentences ood_sentences !! k = Some 1)).
Proof.
  unfold y_true_multiclass. split.
  - destruct (mapM _ test_intents) as [known|] eqn:E.
    + split; [discriminate|]. intros (i & Hin & Hnone). exfalso.
      apply mapM_Some in E.
      apply list_elem_of_lookup in Hin as [k Hk].
      destruct (Forall2_lookup_l _ _ _ _ _ E Hk) as (v & _ & Hv). congruence.
    + split; [intros _ | reflexivity].
      apply mapM_None in E. apply Exists_exists in E as (i & Hin & Hi).
      exists i. split; [exact Hin|].
      destruct (in_lbl_2_indx !! i) eqn:Hlk; [|reflexivity].
      destruct Hi. eauto.
  - intros labels. destruct (mapM _ test_intents) as [known|] eqn:E;
      [|discriminate].
    intros [= <-]. apply mapM_Some in E.
    pose proof (Forall2_length _ _ _ E) as Hlen.
    assert (Hknown : forall k i, test_intents !! k = Some i ->
              (known ++ replicate (length ood_sentences)
                          (Z.of_nat (size in_lbl_2_indx))) !! k
              = in_lbl_2_indx !! i).
    { intros k i Hk.
      destruct (Forall2_lookup_l _ _ _ _ _ E Hk) as (v & Hv & Hi).
      rewrite Hi. now apply lookup_app_l_Some. }
    assert (Hood : forall k, (length test_intents <= k)%nat ->
              (k < length test_intents + length ood_sentences)%nat ->
              (known ++ replicate (length ood_sentences)
                          (Z.of_nat (size in_lbl_2_indx))) !! k
              = Some (Z.of_nat (size in_lbl_2_indx))).
    { intros k Hge Hlt. rewrite lookup_app_r by lia.
      apply lookup_replicate_2. lia. }
    split; [now rewrite length_app, length_replicate, Hlen|].
    split; [exact Hknown|]. split; [exact Hood|].
    intros Hsame Hrange k. unfold y_true_binary.
    destruct (Nat.lt_ge_cases k (length test_intents)) as [Hlt | Hge].
    + destruct (lookup_lt_is_Some_2 test_intents k Hlt) as [i Hi].
      rewrite (Hknown k i Hi).
      rewrite lookup_app_l by (rewrite length_replicate; lia).
      rewrite lookup_replicate_2 by lia. split.
      * intros Hv. now apply Hrange in Hv.
      * discriminate.
    + destruct (Nat.lt_ge_cases k (length test_intents + length ood_sentences))
        as [Hlt | Hge'].
      * rewrite (Hood k Hge Hlt).
        rewrite lookup_app_r by (rewrite length_replicate; lia).
        rewrite length_replicate, lookup_replicate_2 by lia. tauto.
      * rewrite !lookup_ge_None_2;
          [split; discriminate | |];
          rewrite length_app, !length_replicate; lia.
Qed.

End EvaluationFacts.

(** ** Further sample runs *)

Import MoreSamples.

Lemma groupings_agree_on_finite_scores_run :
  class_to_samples_robust (libs := sample_libs (fit_const (f0, f0, f1)))
    classifier tokenizer three_losses three_sentences three_classes 8
  = class_to_samples_standard (libs := sample_libs (fit_const (f0, f0, f1)))
      classifier tokenizer three_losses three_sentences three_classes 8.
Proof.
  apply (groupings_agree_on_finite_scores
           (libs := sample_libs (fit_const (f0, f0, f1)))).
  repeat constructor.
Defined.

Lemma class_to_samples_robust_finite_run :
  Forall (fun s => isfinite s = true)
    [mul f0_5 (div (of_Z 1) f10); mul f0_5 (div (of_Z 3) f10)].
Proof.
  refine (proj2 (class_to_samples_robust_finite
                   (libs := sample_libs (fit_const (f0, f0, f1)))
                   classifier tokenizer three_losses three_sentences
                   three_classes 8 0 _ _)).
  vm_compute. reflexivity.
Defined.

Lemma thresholds_cover_grouped_classes_run :
  let run :=
    fit_evt_models_robust (libs := sample_libs (fit_const (f0, f0, f1)))
      classifier tokenizer three_losses three_sentences three_classes 8
      f0_05 f0_05 in
  dom run.1
    = dom (class_to_samples_robust
             (libs := sample_libs (fit_const (f0, f0, f1)))
             classifier tokenizer three_losses three_sentences three_classes 8)
  /\ dom run.2 ⊆ dom run.1.
Proof.
  intros run.
  exact (thresholds_cover_grouped_classes
           (libs := sample_libs (fit_const (f0, f0, f1)))
           classifier tokenizer three_losses three_sentences three_classes 8
           f0_05 f0_05 run.1 run.2 (surjective_pairing _)).
Defined.

Lemma fit_failure_falls_back_run :
  let run :=
    fit_evt_models_robust (libs := raising_fit_libs)
      classifier tokenizer spread_losses ten_sentences ten_classes 8
      f0_05 f0_05 in
  let scores :=
    map (fun k => mul f0_5 (div (of_Z k) f10)) [1; 2; 3; 4; 5; 6; 7; 8; 9; 10] in
  run.1 !! 0
    = Some (percentile_linear (remove_outliers (libs := raising_fit_libs) scores)
              (mul f100 (sub f1 f0_05)))
  /\ run.2 !! 0 = None.
Proof.
  intros run scores.
  refine (fit_failure_falls_back (libs := raising_fit_libs)
            classifier tokenizer spread_losses ten_sentences ten_classes 8
            f0_05 f0_05 run.1 run.2 0 scores (surjective_pairing _) _ _ _ _).
  - vm_compute. reflexivity.
  - vm_compute. lia.
  - vm_compute. lia.
  - reflexivity.
Defined.

Lemma model_kept_when_threshold_discarded_run :
  let run :=
    fit_evt_models_robust (libs := sample_libs (fit_const (f0, neg f0_5, f1)))
      classifier tokenizer spread_losses ten_sentences ten_classes 8
      f0_05 f0_05 in
  run.2 !! 0 = Some (f0, neg f0_5, f1)
  /\ run.1 !! 0
     = Some (percentile_linear
               (remove_outliers
                  (libs := sample_libs (fit_const (f0, neg f0_5, f1)))
                  (map (fun k => mul f0_5 (div (of_Z k) f10))
                     [1; 2; 3; 4; 5; 6; 7; 8; 9; 10]))
               (mul f100 (sub f1 f0_05))).
Proof.
  intros run.
  refine (model_kept_when_threshold_discarded
            (libs := sample_libs (fit_const (f0, neg f0_5, f1)))
            classifier tokenizer spread_losses ten_sentences ten_classes 8
            f0_05 f0_05 run.1 run.2 0
            (map (fun k => mul f0_5 (div (of_Z k) f10))
               [1; 2; 3; 4; 5; 6; 7; 8; 9; 10])
            f0 (neg f0_5) f1 (surjective_pairing _) _ _ _ _ _ _).
  - vm_compute. reflexivity.
  - vm_compute. lia.
  - vm_compute. lia.
  - reflexivity.
  - vm_compute. reflexivity.
  - right. exists (add (neg f0_5) f1). split; [reflexivity|].
    left. vm_compute. reflexivity.
Defined.

Lemma class_result_depends_on_own_scores_run :
  (fit_evt_models_robust (libs := sample_libs (fit_const (f0, f0, f1)))
     classifier tokenizer three_losses three_sentences three_classes 8
     f0_05 f0_05).1 !! 0
  = (fit_evt_models_robust (libs := sample_libs (fit_const (f0, f0, f1)))
       classifier tokenizer four_losses four_sentences four_classes 8
       f0_05 f0_05).1 !! 0.
Proof.
  refine (proj1 (class_result_depends_on_own_scores
                   (libs := sample_libs (fit_const (f0, f0, f1)))
                   classifier classifier tokenizer tokenizer
                   three_losses four_losses three_sentences four_sentences
                   three_classes four_classes 8 8 f0_05 f0_05 f0_05 0 _)).
  vm_compute. reflexivity.
Defined.

Lemma fit_evt_models_returns_run :
  exists thresholds evt_models,
    fit_evt_models
      (libs := sample_libs (fit_const (f0, neg f0_5, of_scaled 1 (-2))))
      classifier tokenizer three_losses three_sentences three_classes 8 f0_05
    = Ok (thresholds, evt_models)
    /\ thresholds !! 1 = Some (of_scaled 1 (-2))
    /\ evt_models !! 1 = Some (f0, neg f0_5, of_scaled 1 (-2)).
Proof.
  destruct (fit_evt_models
              (libs := sample_libs (fit_const (f0, neg f0_5, of_scaled 1 (-2))))
              classifier tokenizer three_losses three_sentences three_classes
              8 f0_05) as [[thresholds evt_models]|] eqn:Hrun;
    [|vm_compute in Hrun; discriminate].
  exists thresholds, evt_models. split; [reflexivity|].
  destruct (fit_evt_models_returns
              (libs := sample_libs (fit_const (f0, neg f0_5, of_scaled 1 (-2))))
              classifier tokenizer three_losses three_sentences three_classes
              8 f0_05 thresholds evt_models Hrun) as [Hin _].
  destruct (Hin 1 [mul f0_5 (div (of_Z 2) f10)])
    as (shape & loc & scale & p & Hfit & Hppf & Ht & Hm).
  - vm_compute. reflexivity.
  - injection Hfit as <- <- <-. injection Hppf as <-.
    split; [exact Ht | exact Hm].
Defined.

Lemma fit_evt_models_raises_run :
  fit_evt_models (libs := raising_fit_libs) classifier tokenizer three_losses
    three_sentences three_classes 8 f0_05 = Raised.
Proof.
  apply (fit_evt_models_raises (libs := raising_fit_libs)).
  exists 1, [mul f0_5 (div (of_Z 2) f10)].
  split; [vm_compute; reflexivity | now left].
Defined.

Lemma compute_loss_safe_length_run :
  (length (compute_loss_safe vae skipping_data) < length skipping_data)%nat.
Proof.
  apply (compute_loss_safe_length Z vae skipping_data); vm_compute; lia.
Defined.

Lemma compute_loss_safe_app_run :
  compute_loss_safe vae ([(1, 0, 0); (2, 0, 0)] ++ [(-1, 0, 0); (3, 0, 0)])
  = compute_loss_safe vae [(1, 0, 0); (2, 0, 0)]
    ++ compute_loss_safe vae [(-1, 0, 0); (3, 0, 0)].
Proof.
  apply (compute_loss_safe_app Z vae).
  - apply Exists_cons_hd. reflexivity.
  - apply Exists_cons_tl, Exists_cons_hd. reflexivity.
Defined.

Lemma predicted_views_agree_run :
  predict classifier tokenizer [div (of_Z 1) f10; div (of_Z 9) f10]
    [0; 1]%nat f0_5 2 8 !! 1%nat = Some 2
  <-> y_pred_binary [div (of_Z 1) f10; div (of_Z 9) f10] f0_5 !! 1%nat = Some 1.
Proof.
  refine (proj2 (proj2 (proj2 (predicted_views_agree classifier tokenizer
            f0_5 2 8 [div (of_Z 1) f10; div (of_Z 9) f10] [0; 1]%nat 1%nat
            (div (of_Z 9) f10) 1%nat eq_refl eq_refl))) _).
  vm_compute. discriminate.
Defined.

Lemma nan_is_out_of_domain_run :
  predict classifier tokenizer [div (of_Z 1) f10; nan] [0; 1]%nat f0_5 2 8
    !! 1%nat = Some 2
  /\ y_pred_binary [div (of_Z 1) f10; nan] f0_5 !! 1%nat = Some 1.
Proof.
  refine (nan_is_out_of_domain classifier tokenizer f0_5 2 8
            [div (of_Z 1) f10; nan] [0; 1]%nat 1%nat nan 1%nat
            eq_refl eq_refl _).
  now left.
Defined.

Lemma y_pred_multiclass_split_run :
  y_pred_multiclass classifier tokenizer [div (of_Z 1) f10] [div (of_Z 9) f10]
    [0; 1]%nat [2]%nat f0_5 2 8 !! 1%nat
  = Some (decision classifier tokenizer f0_5 2 8 (div (of_Z 9) f10) 1%nat).
Proof.
  exact (proj2 (y_pred_multiclass_split classifier tokenizer f0_5 2 8
                  [div (of_Z 1) f10] [div (of_Z 9) f10] [0; 1]%nat [2]%nat)
           0%nat (div (of_Z 9) f10) 1%nat eq_refl eq_refl).
Defined.

Lemma evaluation_lengths_run :
  length (y_pred_multiclass classifier tokenizer [div (of_Z 1) f10]
            [div (of_Z 9) f10] [0; 1]%nat [2]%nat f0_5 2 8) = 2%nat.
Proof.
  exact (proj1 (proj2 (proj2 (evaluation_lengths classifier tokenizer f0_5 2 8
                  [div (of_Z 1) f10] [div (of_Z 9) f10] [0; 1]%nat [2]%nat)))).
Defined.

Lemma y_true_multiclass_spec_run :
  y_true_multiclass two_intents [0; 2]%nat [5]%nat = Raised.
Proof.
  apply (proj1 (y_true_multiclass_spec two_intents [0; 2]%nat [7; 8]%nat
                  [5]%nat)).
  exists 2%nat. split; [|vm_compute; reflexivity].
  apply elem_of_cons. right. apply elem_of_cons. now left.
Defined.
